(** * content_fetcher: fetching a blog post and extracting its content

    A shallow embedding of [src/content_fetcher.py].

    - Python [str] values are [string]s; a character is a code point below
      256, with Python's [str.isspace] and [str.lower] on that range (beyond
      it [str.lower] can change the length of a string; no statement below
      relies on the lowering of anything but the ASCII signals).
    - The HTTP transport ([requests.get] followed by [raise_for_status]),
      the HTML parser ([BeautifulSoup(text, "html.parser")]) and
      [urllib.parse.urlparse] are libraries outside the repository: they are
      parameters of [fetch_post], the parser and [urlparse] returning [None]
      when they raise.  A parsed document is a tree of tags and strings,
      queried the way bs4 queries it: descendants in document order, and the
      text of a tag read from the strings of the classes that tag is
      interested in.
    - A returned [dict] is a [gmap string pyval]. *)

From Stdlib Require Import String Ascii List Arith Bool Lia.
From stdpp Require Import base gmap strings.
Import ListNotations.

Local Open Scope string_scope.
Local Open Scope list_scope.

(** ** Python string operations *)

Module Py.

(** [str.isspace] on one character (code points below 256). *)
Definition isspace (c : ascii) : bool :=
  let n := nat_of_ascii c in
  (Nat.leb 9 n && Nat.leb n 13) || (Nat.leb 28 n && Nat.leb n 32)
  || Nat.eqb n 133 || Nat.eqb n 160.

(** [str.lower] on one character (code points below 256, where it maps a
    character to one character). *)
Definition lower_char (c : ascii) : ascii :=
  let n := nat_of_ascii c in
  if (Nat.leb 65 n && Nat.leb n 90)
     || (Nat.leb 192 n && Nat.leb n 222 && negb (Nat.eqb n 215))
  then ascii_of_nat (n + 32) else c.

Fixpoint lower (s : string) : string :=
  match s with
  | EmptyString => EmptyString
  | String c s' => String (lower_char c) (lower s')
  end.

(** [s[:n]] *)
Fixpoint slice_to (n : nat) (s : string) : string :=
  match n, s with
  | S n', String c s' => String c (slice_to n' s')
  | _, _ => EmptyString
  end.

(** [s.startswith(p)] *)
Fixpoint startswith (p s : string) : bool :=
  match p, s with
  | EmptyString, _ => true
  | String a p', String b s' => Ascii.eqb a b && startswith p' s'
  | String _ _, EmptyString => false
  end.

(** [sub in s] *)
Fixpoint contains (sub s : string) : bool :=
  startswith sub s ||
  match s with
  | EmptyString => false
  | String _ s' => contains sub s'
  end.

(** [s.lstrip()], [s.rstrip()], [s.strip()] *)
Fixpoint lstrip (s : string) : string :=
  match s with
  | EmptyString => EmptyString
  | String c s' => if isspace c then lstrip s' else s
  end.

(** [s.rstrip(chars)] for the characters selected by [p]. *)
Fixpoint rstrip_by (p : ascii -> bool) (s : string) : string :=
  match s with
  | EmptyString => EmptyString
  | String c s' =>
      match rstrip_by p s' with
      | EmptyString => if p c then EmptyString else String c EmptyString
      | r => String c r
      end
  end.

Definition rstrip : string -> string := rstrip_by isspace.

Definition strip (s : string) : string := rstrip (lstrip s).

(** [s.split()]: the maximal runs of non-whitespace characters. *)
Fixpoint split (s : string) : list string :=
  match s with
  | EmptyString => []
  | String c s' =>
      if isspace c then split s'
      else
        match s' with
        | EmptyString => [String c EmptyString]
        | String c' _ =>
            if isspace c' then String c EmptyString :: split s'
            else
              match split s' with
              | w :: ws => String c w :: ws
              | [] => [String c EmptyString]
              end
        end
  end.

(** [s.split(d)] for a one-character separator [d]: never empty. *)
Fixpoint split_on (d : ascii) (s : string) : list string :=
  match s with
  | EmptyString => [EmptyString]
  | String c s' =>
      if Ascii.eqb c d then EmptyString :: split_on d s'
      else
        match split_on d s' with
        | w :: ws => String c w :: ws
        | [] => [String c EmptyString]
        end
  end.

(** [sep.join(l)] *)
Fixpoint join (sep : string) (l : list string) : string :=
  match l with
  | [] => EmptyString
  | [w] => w
  | w :: ws => w +:+ sep +:+ join sep ws
  end.

Definition nl : ascii := ascii_of_nat 10.

Fixpoint newlines (k : nat) : string :=
  match k with
  | O => EmptyString
  | S k' => String nl (newlines k')
  end.

(** A run of [k] newlines as [re.sub(r"\n{3,}", "\n\n", _)] rewrites it:
    the pattern is greedy, so it takes a whole run of three or more. *)
Definition emit_run (k : nat) (rest : string) : string :=
  if Nat.leb 3 k then newlines 2 +:+ rest else newlines k +:+ rest.

(** The scan of [re.sub(r"\n{3,}", "\n\n", s)], with [pending] newlines of
    the current run already read. *)
Fixpoint sub_newlines_from (pending : nat) (s : string) : string :=
  match s with
  | EmptyString => emit_run pending EmptyString
  | String c s' =>
      if Ascii.eqb c nl then sub_newlines_from (S pending) s'
      else emit_run pending (String c (sub_newlines_from 0 s'))
  end.

Definition re_sub_newlines (s : string) : string := sub_newlines_from 0 s.

(** [x or default] for an optional string: [None] and [""] are falsy. *)
Definition or_else (x : option string) (default : string) : string :=
  match x with
  | Some (String c s) => String c s
  | _ => default
  end.

End Py.

(** ** The parsed document (bs4) *)

(** The subclasses of [NavigableString] the parser gives to strings that
    are not ordinary text: CDATA sections, comments, declarations, and the
    strings inside the tags that are string containers ([script], [style],
    [template], [rt], [rp]). *)
Inductive StringKind : Type :=
| CData
| Comment
| Declaration
| Doctype
| ProcessingInstruction
| Script
| Stylesheet
| TemplateString
| RubyTextString
| RubyParenthesisString.

(** A node of the tree [BeautifulSoup(text, "html.parser")] builds: an
    ordinary string, a string of one of the subclasses, or a tag with its
    attribute dict and its children.  The soup itself is a tag (named
    "[document]") whose children are the top-level nodes. *)
#[warnings="-register-all"]
Inductive Node : Type :=
| NavigableString (text : string)
| SpecialString (kind : StringKind) (text : string)
| Tag (name : string) (attrs : gmap string string) (contents : list Node).

Module Bs4.

(** [tag.descendants]: every node below [n], in document order. *)
Fixpoint descendants (n : Node) : list Node :=
  match n with
  | NavigableString _ => []
  | SpecialString _ _ => []
  | Tag _ _ cs => flat_map (fun c => c :: descendants c) cs
  end.

Definition is_tag_named (nm : string) (n : Node) : bool :=
  match n with
  | Tag name _ _ => String.eqb name nm
  | NavigableString _ => false
  | SpecialString _ _ => false
  end.

(** [tag.find(nm)], also [soup.body] and [soup.title]: the first descendant
    tag of that name, or [None]. *)
Definition find (nm : string) (n : Node) : option Node :=
  List.find (is_tag_named nm) (descendants n).

(** [tag.find_all(names)]: the descendant tags whose name is in [names]. *)
Definition find_all (names : list string) (n : Node) : list Node :=
  List.filter (fun d => existsb (fun nm => is_tag_named nm d) names)
              (descendants n).

(** [tag.find_all("a", href=True)], each tag paired with its [a["href"]]. *)
Definition find_all_a_href (n : Node) : list (Node * string) :=
  flat_map (fun d =>
              match d with
              | Tag name attrs _ =>
                  if String.eqb name "a" then
                    match attrs !! "href" with
                    | Some href => [(d, href)]
                    | None => []
                    end
                  else []
              | NavigableString _ => []
              | SpecialString _ _ => []
              end)
           (descendants n).

(** Whether a tag matches one of the simple selectors of the program: a
    class selector [.c] (the tag's whitespace-separated class list has [c]), an
    id selector [#i], or a type selector (the tag's name). *)
Definition selector_matches (selector : string) (n : Node) : bool :=
  match n with
  | NavigableString _ => false
  | SpecialString _ _ => false
  | Tag name attrs _ =>
      match selector with
      | String "."%char cls =>
          match attrs !! "class" with
          | Some v => existsb (String.eqb cls) (Py.split v)
          | None => false
          end
      | String "#"%char ident =>
          match attrs !! "id" with
          | Some v => String.eqb v ident
          | None => false
          end
      | _ => String.eqb name selector
      end
  end.

(** [tag.select_one(selector)]: the first matching descendant, or [None]. *)
Definition select_one (selector : string) (n : Node) : option Node :=
  List.find (selector_matches selector) (descendants n).

(** The string class a tag of this name holds, when the tag is a string
    container (the builder's [string_containers]). *)
Definition string_container (name : string) : option StringKind :=
  if String.eqb name "script" then Some Script
  else if String.eqb name "style" then Some Stylesheet
  else if String.eqb name "template" then Some TemplateString
  else if String.eqb name "rt" then Some RubyTextString
  else if String.eqb name "rp" then Some RubyParenthesisString
  else None.

Definition kind_eqb (k1 k2 : StringKind) : bool :=
  match k1, k2 with
  | CData, CData | Comment, Comment | Declaration, Declaration
  | Doctype, Doctype | ProcessingInstruction, ProcessingInstruction
  | Script, Script | Stylesheet, Stylesheet
  | TemplateString, TemplateString | RubyTextString, RubyTextString
  | RubyParenthesisString, RubyParenthesisString => true
  | _, _ => false
  end.

(** The string [d] as the text of a tag named [name] reads it, that is when
    its class is one of the tag's [interesting_string_types]: the container's
    own class for a string container, [NavigableString] and [CData] for every
    other tag (and for the soup). *)
Definition interesting_string (name : string) (d : Node) : list string :=
  match d, string_container name with
  | NavigableString s, None => [s]
  | SpecialString CData s, None => [s]
  | SpecialString k s, Some k' => if kind_eqb k k' then [s] else []
  | _, _ => []
  end.

Definition name_of (n : Node) : string :=
  match n with
  | Tag name _ _ => name
  | _ => EmptyString
  end.

(** [tag._all_strings()]: the strings below [n] that its text reads, in
    document order. *)
Definition strings (n : Node) : list string :=
  flat_map (interesting_string (name_of n)) (descendants n).

Definition nonempty (s : string) : bool :=
  match s with
  | EmptyString => false
  | String _ _ => true
  end.

(** [tag.get_text(separator=sep, strip=True)]: every string stripped, the
    empty ones dropped, the rest joined by [sep]. *)
Definition get_text (sep : string) (n : Node) : string :=
  Py.join sep (List.filter nonempty (List.map Py.strip (strings n))).

End Bs4.

(** ** The program's constants *)

Definition _HEADER_SETS : list (gmap string string) :=
  [ {[ "User-Agent" :=
         "Mozilla/5.0 (compatible; BlogRevivalBot/1.0; +https://airanking.com)" ]};
    {[ "User-Agent" :=
         "Mozilla/5.0 (Windows NT 10.0; Win64; x64) AppleWebKit/537.36 (KHTML, like Gecko) Chrome/124.0.0.0 Safari/537.36";
       "Accept" :=
         "text/html,application/xhtml+xml,application/xml;q=0.9,*/*;q=0.8";
       "Accept-Language" := "en-US,en;q=0.9" ]} ].

Definition CONTENT_SELECTORS : list string :=
  [ ".post-content"; ".entry-content"; ".post-body"; ".article-body";
    ".blog-post"; ".single-post"; "#content"; ".content"; "article"; "main" ].

Definition _MIN_CONTENT_WORDS : nat := 100.

Definition signals : list string :=
  [ "just a moment"; "checking your browser"; "cf-challenge";
    "challenge-platform" ].

Definition cloudflare_reason : string :=
  "Cloudflare blocked the request (challenge page returned)".

Definition generic_reason : string := "Failed to fetch the page".

(** [_is_blocked_page(html)] *)
Definition _is_blocked_page (html : string) : bool :=
  let lower := Py.lower (Py.slice_to 5000 html) in
  existsb (fun s => Py.contains s lower) signals.

(** ** Results *)

(** One collected heading, the dict [{"level": ..., "text": ...}]. *)
Record Heading : Type := { level : string; heading_text : string }.

(** One collected link, the dict [{"text": ..., "href": ...}]. *)
Record Link : Type := { link_text : string; href : string }.

(** The values stored in the returned dict. *)
Inductive pyval : Type :=
| VNone
| VStr (s : string)
| VInt (n : nat)
| VHeadings (hs : list Heading)
| VLinks (ls : list Link).

(** What one request does: [requests.get] or [raise_for_status] (or reading
    the body) raises an exception [e], of which the program keeps [str(e)];
    or the response has a success status and a body [resp.text]. *)
Inductive Response : Type :=
| Raises (str_e : string)
| Ok200 (text : string).

(** The two components of [urlparse(url)] the program reads. *)
Record ParseResult : Type := { netloc : string; path : string }.

(** ** Link classification (lines 103-115) *)

(** The body of the loop over the anchors: [links] is the pair
    [(internal_links, external_links)], [a] an anchor with its href. *)
Definition link_step (domain : string) (links : list Link * list Link)
    (a : Node * string) : list Link * list Link :=
  let '(internal_links, external_links) := links in
  let href := snd a in
  let text := Bs4.get_text "" (fst a) in
  if negb (Bs4.nonempty href) || Py.startswith "#" href
     || Py.startswith "mailto:" href
  then links
  else if Bs4.nonempty domain && Py.contains domain href
  then (internal_links ++ [{| link_text := text; href := href |}], external_links)
  else if Py.startswith "/" href
  then (internal_links ++ [{| link_text := text; href := href |}], external_links)
  else if Py.startswith "http" href
  then (internal_links, external_links ++ [{| link_text := text; href := href |}])
  else links.

Definition collect_links (domain : string) (content_area : Node)
    : list Link * list Link :=
  fold_left (link_step domain) (Bs4.find_all_a_href content_area) ([], []).

(** ** Slug (lines 125-126) *)

Definition slash : ascii := "/"%char.

(** [path.rstrip("/")], then
    [path.split("/")[-1] if "/" in path else path or "post"]. *)
Definition slug_of_path (url_path : string) : string :=
  let path := Py.rstrip_by (Ascii.eqb slash) url_path in
  if Py.contains "/" path then List.last (Py.split_on slash path) EmptyString
  else Py.or_else (Some path) "post".

(** ** Title (lines 70-76) *)

Definition title_of (soup : Node) : string :=
  match Bs4.find "h1" soup with
  | Some h1 => Bs4.get_text "" h1
  | None =>
      match Bs4.find "title" soup with
      | Some t => Bs4.get_text "" t
      | None => ""
      end
  end.

(** ** Content area (lines 79-88) *)

(** [len(candidate.get_text(strip=True).split())] *)
Definition words (candidate : Node) : nat :=
  length (Py.split (Bs4.get_text "" candidate)).

(** The loop over the selectors, leaving at the first accepted candidate. *)
Fixpoint select_content (soup : Node) (selectors : list string) : option Node :=
  match selectors with
  | [] => None
  | selector :: rest =>
      match Bs4.select_one selector soup with
      | Some candidate =>
          if Nat.leb _MIN_CONTENT_WORDS (words candidate) then Some candidate
          else select_content soup rest
      | None => select_content soup rest
      end
  end.

Definition content_area_of (soup : Node) : Node :=
  match select_content soup CONTENT_SELECTORS with
  | Some content_area => content_area
  | None =>
      match Bs4.find "body" soup with
      | Some body => body
      | None => soup
      end
  end.

(** ** Headings (lines 91-93) *)

Definition tag_name (n : Node) : string :=
  match n with
  | Tag name _ _ => name
  | NavigableString _ => ""
  | SpecialString _ _ => ""
  end.

Definition headings_of (content_area : Node) : list Heading :=
  List.map (fun tag => {| level := tag_name tag;
                          heading_text := Bs4.get_text "" tag |})
           (Bs4.find_all ["h2"; "h3"] content_area).

(** ** Body text (lines 118-119) *)

Definition body_text_of (content_area : Node) : string :=
  Py.re_sub_newlines (Bs4.get_text (String Py.nl "") content_area).

(** ** fetch_post *)

Section FetchPost.

(** The world the requests act on, and one request in it: the URL, the
    headers and the timeout in, the outcome and the world after it out. *)
Variable World : Type.
Variable requests_get :
  string -> gmap string string -> nat -> World -> Response * World.

(** [BeautifulSoup(text, "html.parser")]; [None] when it raises (the parser
    rejects some markup). *)
Variable html_parser : string -> option Node.

(** [urlparse(url)]; [None] when it raises. *)
Variable urlparse : string -> option ParseResult.

(** What the loop over the header sets leaves (lines 49-63): [response]
    (its text), [last_error], and the world after the requests made. *)
Fixpoint fetch_loop (url : string) (header_sets : list (gmap string string))
    (last_error : option string) (w : World)
    : option string * option string * World :=
  match header_sets with
  | [] => (None, last_error, w)
  | headers :: rest =>
      match requests_get url headers 20 w with
      | (Raises str_e, w') => fetch_loop url rest (Some str_e) w'
      | (Ok200 text, w') =>
          if _is_blocked_page text
          then fetch_loop url rest (Some cloudflare_reason) w'
          else (Some text, last_error, w')
      end
  end.

(** The reasons the loop records in [last_error], oldest first, up to the
    response it accepts. *)
Fixpoint recorded_reasons (url : string)
    (header_sets : list (gmap string string)) (w : World) : list string :=
  match header_sets with
  | [] => []
  | headers :: rest =>
      match requests_get url headers 20 w with
      | (Raises str_e, w') => str_e :: recorded_reasons url rest w'
      | (Ok200 text, w') =>
          if _is_blocked_page text
          then cloudflare_reason :: recorded_reasons url rest w'
          else []
      end
  end.

(** Lines 68-138: the record built from an accepted response's text.
    [None] when an exception leaves the function: the parser's at line 68, or
    that of the unguarded [urlparse(url)] of line 125. *)
Definition extract (text url : string) : option (gmap string pyval) :=
  match html_parser text with
  | None => None
  | Some soup =>
      let title := title_of soup in
      let content_area := content_area_of soup in
      let headings := headings_of content_area in
      let domain :=
        match urlparse url with
        | Some r => netloc r
        | None => ""
        end in
      let '(internal_links, external_links) :=
        collect_links domain content_area in
      let body_text := body_text_of content_area in
      let word_count := length (Py.split body_text) in
      match urlparse url with
      | None => None
      | Some r =>
          let slug := slug_of_path (path r) in
          Some (<["url" := VStr url]>
                (<["slug" := VStr slug]>
                (<["title" := VStr title]>
                (<["headings" := VHeadings headings]>
                (<["body_text" := VStr body_text]>
                (<["internal_links" := VLinks internal_links]>
                (<["external_links" := VLinks external_links]>
                (<["word_count" := VInt word_count]>
                (<["error" := VNone]> ∅)))))))))
      end
  end.

(** The error record of line 66. *)
Definition error_record (last_error : option string) (url : string)
    : gmap string pyval :=
  <["error" := VStr (Py.or_else last_error generic_reason)]>
  (<["url" := VStr url]> ∅).

(** [fetch_post] over a list of header sets; the result comes with the
    world after the requests. *)
Definition fetch_post_with (header_sets : list (gmap string string))
    (url : string) (w : World) : option (gmap string pyval) * World :=
  match fetch_loop url header_sets None w with
  | (None, last_error, w') => (Some (error_record last_error url), w')
  | (Some text, _, w') => (extract text url, w')
  end.

Definition fetch_post (url : string) (w : World)
    : option (gmap string pyval) * World :=
  fetch_post_with _HEADER_SETS url w.

End FetchPost.

(** ** Predicates of the statements *)

(** A string with no whitespace at either end. *)
Definition clean (s : string) : Prop :=
  Py.lstrip s = s /\ Py.rstrip s = s.

(** No run of three newlines in [s], [run] newlines standing before it. *)
Fixpoint short_runs (run : nat) (s : string) : bool :=
  match s with
  | EmptyString => true
  | String c s' =>
      if Ascii.eqb c Py.nl then Nat.ltb (S run) 3 && short_runs (S run) s'
      else short_runs 0 s'
  end.

(** No whitespace character in [s]. *)
Fixpoint no_space (s : string) : bool :=
  match s with
  | EmptyString => true
  | String c s' => negb (Py.isspace c) && no_space s'
  end.

(** [k] slashes. *)
Fixpoint slashes (k : nat) : string :=
  match k with
  | O => EmptyString
  | S k' => String "/"%char (slashes k')
  end.

(** ** The specification's wording, for comparison with the code *)

Module Spec.

(** "strip a single trailing slash" *)
Fixpoint strip_one_trailing_slash (s : string) : string :=
  match s with
  | EmptyString => EmptyString
  | String c EmptyString =>
      if Ascii.eqb c slash then EmptyString else String c EmptyString
  | String c s' => String c (strip_one_trailing_slash s')
  end.

(** "the substring after the last /" *)
Definition after_last (d : ascii) (s : string) : string :=
  List.last (Py.split_on d s) EmptyString.

(** The slug as the specification words it: strip a single trailing slash,
    take the substring after the last "/"; "post" if the path was empty. *)
Definition slug (url_path : string) : string :=
  match strip_one_trailing_slash url_path with
  | EmptyString => "post"
  | p => after_last slash p
  end.

(** The hostname of a network location [userinfo@host:port]: what follows the
    last "@", up to the first ":" (bracketed IPv6 hosts apart). *)
Definition hostname (url_netloc : string) : string :=
  List.hd EmptyString (Py.split_on ":"%char (after_last "@"%char url_netloc)).

Inductive LinkClass : Type := Internal | External | Dropped.

(** The classification as the specification words it, [host] being the
    request URL's hostname. *)
Definition classify_by_hostname (host href : string) : LinkClass :=
  if negb (Bs4.nonempty href) || Py.startswith "#" href
     || Py.startswith "mailto:" href
  then Dropped
  else if Py.contains host href || Py.startswith "/" href then Internal
  else if Py.startswith "http" href then External
  else Dropped.

(** The classification with the request URL's network location [domain]
    ([urlparse(url).netloc]: the host with any userinfo and port, as the URL
    spells them), which counts only when it is not empty. *)
Definition classify (domain href : string) : LinkClass :=
  if negb (Bs4.nonempty href) || Py.startswith "#" href
     || Py.startswith "mailto:" href
  then Dropped
  else if (Bs4.nonempty domain && Py.contains domain href)
          || Py.startswith "/" href
  then Internal
  else if Py.startswith "http" href then External
  else Dropped.

Definition is_internal (c : LinkClass) : bool :=
  match c with Internal => true | _ => false end.

Definition is_external (c : LinkClass) : bool :=
  match c with External => true | _ => false end.

(** The most recently recorded reason, if any. *)
Definition last_reason (reasons : list string) : option string :=
  match reasons with
  | [] => None
  | _ => Some (List.last reasons EmptyString)
  end.

(** The error string as the specification words it: the most recently
    recorded reason, the generic one when none was recorded. *)
Definition error_string (reasons : list string) : string :=
  match reasons with
  | [] => generic_reason
  | _ => List.last reasons EmptyString
  end.

(** A block-page signal occurs, in any letter case, within the first 5000
    characters of [text]. *)
Definition signal_in_prefix (text : string) : Prop :=
  exists sig pre m post,
    In sig signals /\ Py.slice_to 5000 text = pre +:+ m +:+ post
    /\ Py.lower m = sig.

(** The strings of [l] one after the other, nothing between them. *)
Fixpoint glued (l : list string) : string :=
  match l with
  | [] => EmptyString
  | s :: l' => s +:+ glued l'
  end.

(** "the trimmed text" of an element: its strings one after the other, the
    whole trimmed. *)
Definition trimmed_text (n : Node) : string :=
  Py.strip (glued (Bs4.strings n)).

(** "space-delimited token count": the tokens that the space character
    delimits. *)
Definition space_token_count (s : string) : nat :=
  length (List.filter Bs4.nonempty (Py.split_on " "%char s)).

(** The keys of the output record. *)
Definition content_keys : list string :=
  [ "slug"; "title"; "headings"; "body_text"; "internal_links";
    "external_links"; "word_count" ].

Definition all_keys : list string := "url" :: "error" :: content_keys.

End Spec.

(** The link an anchor contributes. *)
Definition link_of (a : Node * string) : Link :=
  {| link_text := Bs4.get_text "" (fst a); href := snd a |}.

(** ** Sample inputs *)

Module Sample.

(** [n] words, each followed by a space. *)
Fixpoint n_words (n : nat) : string :=
  match n with
  | O => EmptyString
  | S k => "word " +:+ n_words k
  end.

(** A page whose [.post-content] block has [n] words and whose [article]
    has 150. *)
Definition page (n : nat) : Node :=
  Tag "[document]" ∅
    [ Tag "html" ∅
        [ Tag "head" ∅ [ Tag "title" ∅ [ NavigableString " A page " ] ];
          Tag "body" ∅
            [ Tag "div" {[ "class" := "card post-content" ]}
                [ NavigableString (n_words n) ];
              Tag "article" ∅
                [ Tag "h2" ∅ [ NavigableString "Section" ];
                  Tag "p" ∅ [ NavigableString (n_words 150) ] ] ] ] ].

(** A page with no body element, one heading and a few anchors. *)
Definition fragment : Node :=
  Tag "[document]" ∅
    [ Tag "h1" ∅ [ NavigableString " Hello "; Tag "b" ∅ [ NavigableString "World" ] ];
      Tag "a" {[ "href" := "/about" ]} [ NavigableString "About" ];
      Tag "a" {[ "href" := "https://x.com/other" ]} [ NavigableString "Other" ];
      Tag "a" {[ "href" := "https://other.com/page" ]} [ NavigableString "Page" ];
      Tag "a" {[ "href" := "#section" ]} [ NavigableString "Up" ];
      Tag "a" {[ "href" := "mailto:a@b.com" ]} [ NavigableString "Mail" ];
      Tag "a" {[ "href" := "page2.html" ]} [ NavigableString "Next" ];
      Tag "a" ∅ [ NavigableString "Anchor" ] ].

(** A post: a title element and no h1, a link outside the content block, and
    an [.entry-content] block with one h2, 150 words, two internal links and
    one external link. *)
Definition post : Node :=
  Tag "[document]" ∅
    [ Tag "html" ∅
        [ Tag "head" ∅ [ Tag "title" ∅ [ NavigableString "My Post" ] ];
          Tag "body" ∅
            [ Tag "nav" ∅
                [ Tag "a" {[ "href" := "/home" ]} [ NavigableString "Home" ] ];
              Tag "div" {[ "class" := "entry-content" ]}
                [ Tag "h2" ∅ [ NavigableString "Intro" ];
                  Tag "p" ∅ [ NavigableString (n_words 150) ];
                  Tag "a" {[ "href" := "/about" ]} [ NavigableString "About" ];
                  Tag "a" {[ "href" := "https://x.com/more" ]}
                    [ NavigableString "More" ];
                  Tag "a" {[ "href" := "https://other.com/" ]}
                    [ NavigableString "Elsewhere" ] ] ] ] ].

(** What [urlparse] returns for "https://x.com/blog/my-post//", for
    "https://x.com:8080/blog/my-post/" and for "https://x.com/blog/my-post/". *)
Definition urlparse (url : string) : option ParseResult :=
  if String.eqb url "https://x.com/blog/my-post//"
  then Some {| netloc := "x.com"; path := "/blog/my-post//" |}
  else if String.eqb url "https://x.com:8080/blog/my-post/"
  then Some {| netloc := "x.com:8080"; path := "/blog/my-post/" |}
  else Some {| netloc := "x.com"; path := "/blog/my-post/" |}.

(** A parser that sees [fragment] in every text. *)
Definition html_parser (text : string) : option Node := Some fragment.

(** A transport on which every request fails. *)
Definition refuse (url : string) (headers : gmap string string)
    (timeout : nat) (w : unit) : Response * unit :=
  (Raises "Connection refused", w).

(** A transport that answers the bot profile with a challenge page and
    fails, with an exception that has no message, on the browser profile. *)
Definition challenge_then_silence (url : string)
    (headers : gmap string string) (timeout : nat) (w : unit)
    : Response * unit :=
  match headers !! "Accept" with
  | None => (Ok200 "<title>Just a moment...</title>", w)
  | Some _ => (Raises "", w)
  end.

(** A transport that serves [text] to every request. *)
Definition serve (text : string) (url : string)
    (headers : gmap string string) (timeout : nat) (w : unit)
    : Response * unit :=
  (Ok200 text, w).

(** A transport that times out on the first request made and serves [text]
    from then on; the world counts the requests. *)
Definition serve_second (text : string) (url : string)
    (headers : gmap string string) (timeout : nat) (w : nat)
    : Response * nat :=
  match w with
  | O => (Raises "Read timed out", S w)
  | S _ => (Ok200 text, S w)
  end.

(** A body whose only block-page signal starts at character 5000. *)
Definition late_signal : string :=
  Py.slice_to 5000 (n_words 1000) +:+ "just a moment".

End Sample.

(** ** Further predicates of the statements *)

(** [s] starts with a whitespace character. *)
Definition starts_space (s : string) : bool :=
  match s with
  | EmptyString => false
  | String c _ => Py.isspace c
  end.

(** The number of tokens of [s.split()]. *)
Definition token_count (s : string) : nat := length (Py.split s).

(** The sum of a list of numbers. *)
Fixpoint total (l : list nat) : nat :=
  match l with
  | [] => 0
  | n :: l' => n + total l'
  end.

(** A transport that serves [text] to the browser profile only, and fails
    on every other one. *)
Definition serve_browser_only (text : string) (url : string)
    (headers : gmap string string) (timeout : nat) (w : nat)
    : Response * nat :=
  match headers !! "Accept" with
  | Some _ => (Ok200 text, S w)
  | None => (Raises "403 Client Error: Forbidden", S w)
  end.

(** A [urlparse] that raises on every URL. *)
Definition urlparse_raises (url : string) : option ParseResult := None.

(** A parser that rejects every markup. *)
Definition parser_rejects (text : string) : option Node := None.

(** ** Further sample documents *)

Module Case.

(** A [.post-content] block of 100 words in two paragraphs of 50. *)
Definition split_region : Node :=
  Tag "div" {[ "class" := "post-content" ]}
    [ Tag "p" ∅ [ NavigableString (Sample.n_words 50) ];
      Tag "p" ∅ [ NavigableString (Sample.n_words 50) ] ].

(** The [article] that follows it, of 150 words in one paragraph. *)
Definition long_article : Node :=
  Tag "article" ∅ [ Tag "p" ∅ [ NavigableString (Sample.n_words 150) ] ].

(** A page with that block and, after it, that article. *)
Definition split_post : Node :=
  Tag "[document]" ∅
    [ Tag "html" ∅ [ Tag "body" ∅ [ split_region; long_article ] ] ].

(** Two paragraphs of two words each. *)
Definition two_paragraphs : Node :=
  Tag "[document]" ∅
    [ Tag "p" ∅ [ NavigableString "one two" ];
      Tag "p" ∅ [ NavigableString "three four" ] ].

(** One paragraph with inline markup: [<p>Hello <b>World</b>!</p>]. *)
Definition inline_paragraph : Node :=
  Tag "[document]" ∅
    [ Tag "p" ∅
        [ NavigableString "Hello ";
          Tag "b" ∅ [ NavigableString "World" ];
          NavigableString "!" ] ].

(** A heading with inline markup: [<h1>My <em>Great</em> Post</h1>]. *)
Definition inline_heading : Node :=
  Tag "[document]" ∅
    [ Tag "h1" ∅
        [ NavigableString "My ";
          Tag "em" ∅ [ NavigableString "Great" ];
          NavigableString " Post" ] ].

(** A content block that is a script: its strings are of the class [Script],
    which its own text reads and the text of the tags around it skips. *)
Definition script_region : Node :=
  Tag "script" {[ "class" := "entry-content" ]}
    [ SpecialString Script (Sample.n_words 120) ].

Definition script_page : Node :=
  Tag "[document]" ∅
    [ Tag "body" ∅
        [ Tag "p" ∅ [ NavigableString "Read on" ]; script_region ] ].

End Case.

(** * Properties *)

(** ** Strings *)

Lemma str_app_cons (c : ascii) (s t : string) :
  String c s +:+ t = String c (s +:+ t).
Proof. reflexivity. Qed.

Lemma str_app_nil_l (t : string) : "" +:+ t = t.
Proof. reflexivity. Qed.

Lemma str_app_nil_r (s : string) : s +:+ "" = s.
Proof. induction s as [|c s IH]; [reflexivity|]. now rewrite str_app_cons, IH. Qed.

Lemma str_app_assoc (a b c : string) : (a +:+ b) +:+ c = a +:+ (b +:+ c).
Proof.
  induction a as [|x a IH]; [reflexivity|].
  now rewrite !str_app_cons, IH.
Qed.

Lemma str_length_app (a b : string) :
  String.length (a +:+ b) = String.length a + String.length b.
Proof.
  induction a as [|x a IH]; [reflexivity|].
  rewrite str_app_cons. simpl. now rewrite IH.
Qed.

Lemma lower_app (a b : string) :
  Py.lower (a +:+ b) = Py.lower a +:+ Py.lower b.
Proof.
  induction a as [|x a IH]; [reflexivity|].
  rewrite str_app_cons. simpl. now rewrite IH.
Qed.

(** A lowered string splits where its lowering does. *)
Lemma lower_app_inv (x a b : string) :
  Py.lower x = a +:+ b ->
  exists a' b', x = a' +:+ b' /\ Py.lower a' = a /\ Py.lower b' = b.
Proof.
  revert x. induction a as [|c a IH]; intros x H.
  - exists "", x. now rewrite !str_app_nil_l in *.
  - destruct x as [|d x]; [discriminate|].
    rewrite str_app_cons in H. simpl in H. injection H as Hc Hx.
    destruct (IH _ Hx) as (a' & b' & -> & <- & <-).
    exists (String d a'), b'. rewrite str_app_cons. simpl. now rewrite Hc.
Qed.

Lemma startswith_spec (p s : string) :
  Py.startswith p s = true <-> exists t, s = p +:+ t.
Proof.
  revert s. induction p as [|a p IH]; intros s; simpl.
  - split; [intros _; now exists s|reflexivity].
  - destruct s as [|b s].
    + split; [discriminate|]. intros [t H]. rewrite str_app_cons in H. discriminate.
    + rewrite andb_true_iff, Ascii.eqb_eq, IH. split.
      * intros [-> [t ->]]. now exists t.
      * intros [t H]. rewrite str_app_cons in H. injection H as -> ->. eauto.
Qed.

Lemma contains_spec (sub s : string) :
  Py.contains sub s = true <-> exists pre post, s = pre +:+ sub +:+ post.
Proof.
  induction s as [|c s IH].
  - simpl. rewrite orb_false_r, startswith_spec. split.
    + intros [t H]. now exists "", t.
    + intros (pre & post & H). destruct pre as [|x pre].
      * now exists post.
      * rewrite str_app_cons in H. discriminate.
  - cbn [Py.contains]. rewrite orb_true_iff, IH, startswith_spec. split.
    + intros [[t H]|(pre & post & H)].
      * now exists "", t.
      * exists (String c pre), post. now rewrite str_app_cons, H.
    + intros (pre & post & H). destruct pre as [|x pre].
      * left. now exists post.
      * right. rewrite str_app_cons in H. injection H as -> ->. eauto.
Qed.

Lemma slice_to_length_app (a b : string) :
  Py.slice_to (String.length a) (a +:+ b) = Py.slice_to (String.length a) a.
Proof.
  induction a as [|x a IH]; [now destruct b|].
  rewrite str_app_cons. simpl. now rewrite IH.
Qed.

(** ** The fetch loop *)

Lemma is_blocked_page_iff (text : string) :
  _is_blocked_page text = true <-> Spec.signal_in_prefix text.
Proof.
  unfold _is_blocked_page, Spec.signal_in_prefix.
  rewrite existsb_exists. split.
  - intros (sig & Hin & Hc). apply contains_spec in Hc as (pre & post & H).
    apply lower_app_inv in H as (pre' & rest & Hs & Hpre & Hrest).
    apply lower_app_inv in Hrest as (m & post' & -> & Hm & Hpost).
    exists sig, pre', m, post'. auto.
  - intros (sig & pre & m & post & Hin & Hs & Hm).
    exists sig. split; [exact Hin|]. apply contains_spec.
    exists (Py.lower pre), (Py.lower post).
    now rewrite Hs, !lower_app, Hm.
Qed.

Lemma is_blocked_page_prefix (a b : string) :
  String.length a = 5000 -> _is_blocked_page (a +:+ b) = _is_blocked_page a.
Proof.
  intros H. unfold _is_blocked_page. rewrite <- H.
  now rewrite slice_to_length_app.
Qed.

Section FetchLoopFacts.

Context (World : Type).
Context (requests_get :
  string -> gmap string string -> nat -> World -> Response * World).

Lemma fetch_loop_accepts_unblocked (url : string)
    (hs : list (gmap string string)) :
  forall le w t le' w',
    fetch_loop World requests_get url hs le w = (Some t, le', w') ->
    _is_blocked_page t = false.
Proof.
  induction hs as [|h hs IH]; intros le w t le' w' H; simpl in H.
  - discriminate.
  - destruct (requests_get url h 20 w) as [[e|text] w1].
    + eauto.
    + destruct (_is_blocked_page text) eqn:Hb; [eauto|].
      injection H as <- _ _. exact Hb.
Qed.

(** The loop ends without a response exactly when every header set recorded
    a reason, and then [last_error] is the last reason recorded. *)
Lemma fetch_loop_exhausted (url : string) (hs : list (gmap string string)) :
  forall le w,
    length (recorded_reasons World requests_get url hs w) = length hs ->
    exists w',
      fetch_loop World requests_get url hs le w =
        (None,
         match recorded_reasons World requests_get url hs w with
         | [] => le
         | r :: rs => Some (List.last (r :: rs) EmptyString)
         end, w').
Proof.
  induction hs as [|h hs IH]; intros le w H; simpl in *.
  - now exists w.
  - destruct (requests_get url h 20 w) as [[e|text] w1].
    + simpl in H. injection H as H.
      destruct (IH (Some e) w1 H) as (w' & ->). exists w'.
      now destruct (recorded_reasons World requests_get url hs w1).
    + destruct (_is_blocked_page text); [|discriminate].
      simpl in H. injection H as H.
      destruct (IH (Some cloudflare_reason) w1 H) as (w' & ->). exists w'.
      now destruct (recorded_reasons World requests_get url hs w1).
Qed.

Lemma recorded_reasons_length (url : string)
    (hs : list (gmap string string)) (w : World) :
  length (recorded_reasons World requests_get url hs w) <= length hs.
Proof.
  revert w. induction hs as [|h hs IH]; intros w; simpl; [lia|].
  destruct (requests_get url h 20 w) as [[e|text] w1]; simpl.
  - specialize (IH w1). lia.
  - destruct (_is_blocked_page text); simpl; [specialize (IH w1)|]; lia.
Qed.

(** When fewer reasons were recorded than there are header sets, the loop
    accepted a response. *)
Lemma fetch_loop_accepted (url : string) (hs : list (gmap string string)) :
  forall le w,
    length (recorded_reasons World requests_get url hs w) < length hs ->
    exists t le' w',
      fetch_loop World requests_get url hs le w = (Some t, le', w').
Proof.
  induction hs as [|h hs IH]; intros le w H; simpl in *; [lia|].
  destruct (requests_get url h 20 w) as [[e|text] w1].
  - simpl in H. apply IH. lia.
  - destruct (_is_blocked_page text).
    + simpl in H. apply IH. lia.
    + eauto.
Qed.

End FetchLoopFacts.

Lemma or_else_nonempty (x : option string) (d : string) :
  d <> "" -> Py.or_else x d <> "".
Proof. intros Hd. destruct x as [[|c s]|]; simpl; congruence. Qed.

(** C2. Soft-block rejection: when a profile's request succeeds with a body
    that has one of the block-page signals, in any letter case, within its
    first 5000 characters, the loop records the Cloudflare reason and goes on
    with the next profile; without a signal there the response is accepted.
    No response the loop accepts has a signal within its first 5000
    characters, and what follows the first 5000 characters does not change
    the verdict. *)
Theorem C2_soft_block_rejection (World : Type)
    (requests_get :
       string -> gmap string string -> nat -> World -> Response * World)
    (url : string) (headers : gmap string string)
    (rest : list (gmap string string)) (last_error : option string)
    (w w' : World) (text : string) :
  requests_get url headers 20 w = (Ok200 text, w') ->
  (Spec.signal_in_prefix text ->
     fetch_loop World requests_get url (headers :: rest) last_error w =
     fetch_loop World requests_get url rest (Some cloudflare_reason) w')
  /\ (~ Spec.signal_in_prefix text ->
     fetch_loop World requests_get url (headers :: rest) last_error w =
     (Some text, last_error, w'))
  /\ (forall hs le0 w0 t le1 w1,
     fetch_loop World requests_get url hs le0 w0 = (Some t, le1, w1) ->
     ~ Spec.signal_in_prefix t)
  /\ (forall a b, String.length a = 5000 ->
     _is_blocked_page (a +:+ b) = _is_blocked_page a).
Proof.
  intros Hget. repeat split.
  - intros Hsig. apply is_blocked_page_iff in Hsig.
    simpl. now rewrite Hget, Hsig.
  - intros Hsig. simpl. rewrite Hget.
    destruct (_is_blocked_page text) eqn:Hb; [|reflexivity].
    exfalso. apply Hsig. now apply is_blocked_page_iff.
  - intros hs le0 w0 t le1 w1 H Hsig.
    apply fetch_loop_accepts_unblocked in H.
    apply is_blocked_page_iff in Hsig. congruence.
  - intros a b. apply is_blocked_page_prefix.
Qed.

Lemma C2_soft_block_rejection_witness :
  Spec.signal_in_prefix "<title>Just a moment...</title>"
  /\ fetch_loop unit Sample.challenge_then_silence "https://x.com/blog/my-post/"
       _HEADER_SETS None tt =
     fetch_loop unit Sample.challenge_then_silence "https://x.com/blog/my-post/"
       (List.tl _HEADER_SETS) (Some cloudflare_reason) tt.
Proof.
  assert (Hsig : Spec.signal_in_prefix "<title>Just a moment...</title>").
  { apply is_blocked_page_iff. vm_compute. reflexivity. }
  split; [exact Hsig|].
  refine (proj1 (C2_soft_block_rejection unit Sample.challenge_then_silence
            "https://x.com/blog/my-post/" _ _ None tt tt
            "<title>Just a moment...</title>" _) Hsig).
  vm_compute. reflexivity.
Defined.

(** A signal that starts after the first 5000 characters does not block. *)
Example late_signal_not_blocked :
  Py.contains "just a moment" Sample.late_signal = true
  /\ _is_blocked_page Sample.late_signal = false.
Proof. split; vm_compute; reflexivity. Qed.

(** ** The returned record *)

Section RecordFacts.

Context (World : Type).
Context (requests_get :
  string -> gmap string string -> nat -> World -> Response * World).
Context (html_parser : string -> option Node).
Context (urlparse : string -> option ParseResult).

Lemma error_record_lookup (last_error : option string) (url k : string) :
  In k Spec.content_keys -> error_record last_error url !! k = None.
Proof.
  unfold error_record. simpl.
  intros [<-|[<-|[<-|[<-|[<-|[<-|[<-|[]]]]]]]]; reflexivity.
Qed.

Lemma error_record_dom (last_error : option string) (url : string) :
  dom (error_record last_error url) = ({["error"; "url"]} : gset string).
Proof.
  unfold error_record. rewrite !dom_insert_L, dom_empty_L. set_solver.
Qed.

(** A response that was accepted is all the extraction stage reads. *)
Lemma fetch_post_with_accepted (hs : list (gmap string string))
    (url : string) (w : World) (text : string) (le : option string)
    (w' : World) :
  fetch_loop World requests_get url hs None w = (Some text, le, w') ->
  fetch_post_with World requests_get html_parser urlparse hs url w =
    (extract html_parser urlparse text url, w').
Proof. intros H. unfold fetch_post_with. now rewrite H. Qed.

Lemma fetch_post_with_exhausted (hs : list (gmap string string))
    (url : string) (w : World) (le : option string) (w' : World) :
  fetch_loop World requests_get url hs None w = (None, le, w') ->
  fetch_post_with World requests_get html_parser urlparse hs url w =
    (Some (error_record le url), w').
Proof. intros H. unfold fetch_post_with. now rewrite H. Qed.

(** The shape of a record [extract] returns. *)
Lemma extract_shape (text url : string) (rec : gmap string pyval) :
  extract html_parser urlparse text url = Some rec ->
  exists soup r,
    html_parser text = Some soup /\
    urlparse url = Some r /\
    rec =
      <["url" := VStr url]>
      (<["slug" := VStr (slug_of_path (path r))]>
      (<["title" := VStr (title_of soup)]>
      (<["headings" := VHeadings (headings_of (content_area_of soup))]>
      (<["body_text" := VStr (body_text_of (content_area_of soup))]>
      (<["internal_links" :=
           VLinks (fst (collect_links (netloc r) (content_area_of soup)))]>
      (<["external_links" :=
           VLinks (snd (collect_links (netloc r) (content_area_of soup)))]>
      (<["word_count" :=
           VInt (length (Py.split (body_text_of (content_area_of soup))))]>
      (<["error" := VNone]> ∅)))))))).
Proof.
  unfold extract. destruct (html_parser text) as [soup|]; [|discriminate].
  destruct (urlparse url) as [r|] eqn:Hu.
  - intros H. exists soup, r. split; [reflexivity|]. split; [reflexivity|].
    destruct (collect_links (netloc r) (content_area_of soup)) as [il el].
    injection H as <-. reflexivity.
  - destruct (collect_links "" (content_area_of soup)). discriminate.
Qed.

Lemma extract_total (text url : string) (soup : Node) (r : ParseResult) :
  html_parser text = Some soup -> urlparse url = Some r ->
  exists rec, extract html_parser urlparse text url = Some rec.
Proof.
  intros Hp Hu. unfold extract. rewrite Hp, Hu.
  destruct (collect_links (netloc r) (content_area_of soup)).
  eauto.
Qed.

End RecordFacts.

(** C3 (amended). Terminal fetch failure: when every profile is rejected
    (each one recorded a reason), [fetch_post] returns the record with the
    keys "error" and "url" only, whatever the parser and [urlparse] are (the
    extraction is not attempted).  The error is a non-empty string: the most
    recently recorded reason when that reason is not the empty string, the
    generic "Failed to fetch the page" when no reason was recorded or the
    most recent one is empty. *)
Theorem C3_terminal_failure (World : Type)
    (requests_get :
       string -> gmap string string -> nat -> World -> Response * World)
    (html_parser : string -> option Node)
    (urlparse : string -> option ParseResult)
    (hs : list (gmap string string)) (url : string) (w : World) :
  length (recorded_reasons World requests_get url hs w) = length hs ->
  let reasons := recorded_reasons World requests_get url hs w in
  let error := Py.or_else (Spec.last_reason reasons) generic_reason in
  let rec : gmap string pyval :=
    <["error" := VStr error]> (<["url" := VStr url]> ∅) in
  fst (fetch_post_with World requests_get html_parser urlparse hs url w)
    = Some rec
  /\ error <> ""
  /\ (forall r, Spec.last_reason reasons = Some r -> r <> "" -> error = r)
  /\ (Spec.last_reason reasons = None \/ Spec.last_reason reasons = Some ""
      -> error = generic_reason)
  /\ dom rec = ({["error"; "url"]} : gset string)
  /\ (forall k, In k Spec.content_keys -> rec !! k = None)
  /\ (forall html_parser' urlparse',
        fetch_post_with World requests_get html_parser' urlparse' hs url w =
        fetch_post_with World requests_get html_parser urlparse hs url w).
Proof.
  intros Hall reasons error rec.
  destruct (fetch_loop_exhausted World requests_get url hs None w Hall)
    as (w' & Hloop).
  assert (Hle : match recorded_reasons World requests_get url hs w with
                | [] => None
                | r :: rs => Some (List.last (r :: rs) EmptyString)
                end = Spec.last_reason reasons).
  { subst reasons. unfold Spec.last_reason.
    now destruct (recorded_reasons World requests_get url hs w). }
  rewrite Hle in Hloop.
  split; [|split; [|split; [|split; [|split; [|split]]]]].
  - now rewrite (fetch_post_with_exhausted _ _ _ _ _ _ _ _ _ Hloop).
  - apply or_else_nonempty. discriminate.
  - intros r Hr Hne. subst error. rewrite Hr.
    destruct r; [congruence|reflexivity].
  - intros [H|H]; subst error; now rewrite H.
  - apply (error_record_dom (Spec.last_reason reasons) url).
  - intros k Hk.
    apply (error_record_lookup (Spec.last_reason reasons) url k Hk).
  - intros p' u'.
    now rewrite !(fetch_post_with_exhausted _ _ _ _ _ _ _ _ _ Hloop).
Qed.

Lemma C3_terminal_failure_witness :
  length (recorded_reasons unit Sample.refuse "https://x.com/blog/my-post/"
            _HEADER_SETS tt) = length _HEADER_SETS
  /\ fst (fetch_post unit Sample.refuse Sample.html_parser Sample.urlparse
            "https://x.com/blog/my-post/" tt)
     = Some (<["error" := VStr "Connection refused"]>
             (<["url" := VStr "https://x.com/blog/my-post/"]> ∅)).
Proof.
  split; [vm_compute; reflexivity|].
  refine (proj1 (C3_terminal_failure unit Sample.refuse Sample.html_parser
                   Sample.urlparse _HEADER_SETS
                   "https://x.com/blog/my-post/" tt _)).
  vm_compute. reflexivity.
Defined.

(** With no profile at all no reason is recorded, and the error is the
    generic one. *)
Example no_profile_generic_error :
  fst (fetch_post_with unit Sample.refuse Sample.html_parser Sample.urlparse
         [] "https://x.com/blog/my-post/" tt)
  = Some (<["error" := VStr "Failed to fetch the page"]>
          (<["url" := VStr "https://x.com/blog/my-post/"]> ∅)).
Proof. vm_compute. reflexivity. Qed.

(** C3, as stated, fails: the bot profile gets a challenge page and the
    browser profile an exception whose message is empty; both profiles are
    rejected, the reasons recorded are the Cloudflare one and then the empty
    one, yet the error returned is the generic one, which is neither the most
    recent reason nor any reason recorded. *)
Lemma C3_counterexample :
  let reasons :=
    recorded_reasons unit Sample.challenge_then_silence
      "https://x.com/blog/my-post/" _HEADER_SETS tt in
  reasons = [cloudflare_reason; ""]
  /\ length reasons = length _HEADER_SETS
  /\ fst (fetch_post unit Sample.challenge_then_silence Sample.html_parser
            Sample.urlparse "https://x.com/blog/my-post/" tt)
     = Some (<["error" := VStr generic_reason]>
             (<["url" := VStr "https://x.com/blog/my-post/"]> ∅))
  /\ Spec.error_string reasons = ""
  /\ generic_reason <> Spec.error_string reasons
  /\ ~ In generic_reason reasons.
Proof.
  vm_compute. repeat split; try discriminate.
  intros [H|[H|[]]]; discriminate.
Qed.

(** C7 (amended). Output record shape: every record [fetch_post] returns has
    the key "url" with the URL asked for, and is of one of two shapes.  A
    success record has all nine keys, with "error" null and the seven
    content fields populated.  An error record has the two keys "url" and
    "error" only, "error" being a non-empty string; the content keys are
    absent from it. *)
Theorem C7_record_shape (World : Type)
    (requests_get :
       string -> gmap string string -> nat -> World -> Response * World)
    (html_parser : string -> option Node)
    (urlparse : string -> option ParseResult)
    (hs : list (gmap string string)) (url : string) (w : World)
    (rec : gmap string pyval) :
  fst (fetch_post_with World requests_get html_parser urlparse hs url w)
    = Some rec ->
  rec !! "url" = Some (VStr url)
  /\ ((rec !! "error" = Some VNone
       /\ dom rec = (list_to_set Spec.all_keys : gset string)
       /\ exists slug title headings body_text internal_links external_links
                 word_count,
            rec !! "slug" = Some (VStr slug)
            /\ rec !! "title" = Some (VStr title)
            /\ rec !! "headings" = Some (VHeadings headings)
            /\ rec !! "body_text" = Some (VStr body_text)
            /\ rec !! "internal_links" = Some (VLinks internal_links)
            /\ rec !! "external_links" = Some (VLinks external_links)
            /\ rec !! "word_count" = Some (VInt word_count))
      \/ (exists e, e <> "" /\ rec !! "error" = Some (VStr e)
          /\ dom rec = ({["error"; "url"]} : gset string)
          /\ forall k, In k Spec.content_keys -> rec !! k = None)).
Proof.
  unfold fetch_post_with.
  destruct (fetch_loop World requests_get url hs None w)
    as [[[text|] le] w'] eqn:Hloop; simpl.
  - intros H. apply extract_shape in H as (soup & r & Hp & Hu & ->).
    split; [reflexivity|]. left. split; [reflexivity|]. split.
    + rewrite !dom_insert_L, dom_empty_L. unfold Spec.all_keys,
        Spec.content_keys. simpl. set_solver.
    + do 7 eexists. repeat split; reflexivity.
  - intros [= <-]. split; [reflexivity|]. right.
    exists (Py.or_else le generic_reason). split.
    + apply or_else_nonempty. discriminate.
    + split; [reflexivity|]. split.
      * apply error_record_dom.
      * intros k. apply error_record_lookup.
Qed.

Lemma C7_record_shape_witness :
  (<["error" := VStr "Connection refused"]>
    (<["url" := VStr "https://x.com/blog/my-post/"]> ∅) : gmap string pyval)
    !! "url" = Some (VStr "https://x.com/blog/my-post/").
Proof.
  refine (proj1 (C7_record_shape unit Sample.refuse Sample.html_parser
                   Sample.urlparse _HEADER_SETS
                   "https://x.com/blog/my-post/" tt _ _)).
  vm_compute. reflexivity.
Defined.

(** C7, as stated, fails: when every request is refused the record returned
    has the key "error" and the key "url" and no other; "slug", for one, is
    not a key of it. *)
Lemma C7_counterexample :
  exists rec : gmap string pyval,
    fst (fetch_post unit Sample.refuse Sample.html_parser Sample.urlparse
           "https://x.com/blog/my-post/" tt) = Some rec
    /\ rec !! "slug" = None
    /\ rec !! "word_count" = None
    /\ dom rec = ({["error"; "url"]} : gset string).
Proof.
  eexists. split; [vm_compute; reflexivity|].
  split; [reflexivity|]. split; [reflexivity|].
  apply (error_record_dom (Some "Connection refused")).
Qed.

(** ** Searching the document *)

Lemma find_first {A : Type} (f : A -> bool) (l : list A) (x : A) :
  List.find f l = Some x ->
  exists pre post,
    l = pre ++ x :: post /\ f x = true /\ Forall (fun y => f y = false) pre.
Proof.
  induction l as [|a l IH]; simpl; [discriminate|].
  destruct (f a) eqn:Ha.
  - intros [= <-]. exists [], l. auto.
  - intros H. destruct (IH H) as (pre & post & -> & Hx & Hpre).
    exists (a :: pre), post. auto.
Qed.

Lemma find_nothing {A : Type} (f : A -> bool) (l : list A) :
  List.find f l = None -> Forall (fun y => f y = false) l.
Proof.
  induction l as [|a l IH]; simpl; [constructor|].
  destruct (f a) eqn:Ha; [discriminate|]. auto.
Qed.

Lemma select_content_some (soup : Node) (selectors : list string) (c : Node) :
  select_content soup selectors = Some c ->
  exists pre selector post,
    selectors = pre ++ selector :: post
    /\ Bs4.select_one selector soup = Some c
    /\ 100 <= words c
    /\ forall s c', In s pre -> Bs4.select_one s soup = Some c' ->
                    words c' < 100.
Proof.
  induction selectors as [|s selectors IH]; cbn [select_content];
    [discriminate|].
  assert (Hnext : select_content soup selectors = Some c ->
            (forall c', Bs4.select_one s soup = Some c' -> words c' < 100) ->
            exists pre selector post,
              s :: selectors = pre ++ selector :: post
              /\ Bs4.select_one selector soup = Some c
              /\ 100 <= words c
              /\ forall s0 c', In s0 pre -> Bs4.select_one s0 soup = Some c' ->
                               words c' < 100).
  { intros H Hs. destruct (IH H) as (pre & sel & post & -> & Hsel & Hw & Hpre).
    exists (s :: pre), sel, post. split; [reflexivity|].
    split; [exact Hsel|]. split; [exact Hw|].
    intros s0 c' [<-|Hin]; eauto. }
  destruct (Bs4.select_one s soup) as [cand|] eqn:Hs.
  - destruct (Nat.leb _MIN_CONTENT_WORDS (words cand)) eqn:Hw.
    + intros [= <-]. exists [], s, selectors.
      apply Nat.leb_le in Hw. unfold _MIN_CONTENT_WORDS in Hw.
      split; [reflexivity|]. split; [exact Hs|]. split; [exact Hw|].
      intros ? ? [].
    + intros H. apply Hnext; [exact H|].
      intros c' [= <-]. apply Nat.leb_gt in Hw. exact Hw.
  - intros H. apply Hnext; [exact H|]. discriminate.
Qed.

Lemma select_content_none (soup : Node) (selectors : list string) :
  select_content soup selectors = None ->
  forall s c', In s selectors -> Bs4.select_one s soup = Some c' ->
               words c' < 100.
Proof.
  induction selectors as [|s selectors IH]; cbn [select_content];
    [intros _ ? ? []|].
  destruct (Bs4.select_one s soup) as [cand|] eqn:Hs.
  - destruct (Nat.leb _MIN_CONTENT_WORDS (words cand)) eqn:Hw; [discriminate|].
    intros H s0 c' [<-|Hin] Hsel; [|eauto].
    rewrite Hs in Hsel. injection Hsel as <-.
    apply Nat.leb_gt in Hw. exact Hw.
  - intros H s0 c' [<-|Hin] Hsel; [congruence|eauto].
Qed.

(** X14. Content-area discovery, [words] being the count of line 83 (the
    candidate's strings stripped and glued with no separator, then split):
    either some selector of the list is the first one, in list order, whose
    first match has at least 100 such words, and the content area is that
    match; or no selector's first match has 100, and the content area is the
    body element, or the whole document when there is none.  The match taken
    for a selector is its first one in document order. *)
Theorem X14_content_area_discovery (soup : Node) :
  ((exists pre selector post c,
      CONTENT_SELECTORS = pre ++ selector :: post
      /\ Bs4.select_one selector soup = Some c
      /\ 100 <= words c
      /\ (forall s c', In s pre -> Bs4.select_one s soup = Some c' ->
                       words c' < 100)
      /\ content_area_of soup = c)
   \/ ((forall s c', In s CONTENT_SELECTORS ->
                     Bs4.select_one s soup = Some c' -> words c' < 100)
       /\ content_area_of soup =
            match Bs4.find "body" soup with
            | Some body => body
            | None => soup
            end))
  /\ (forall selector c,
        Bs4.select_one selector soup = Some c ->
        exists before after,
          Bs4.descendants soup = before ++ c :: after
          /\ Bs4.selector_matches selector c = true
          /\ Forall (fun d => Bs4.selector_matches selector d = false) before).
Proof.
  split.
  - unfold content_area_of.
    destruct (select_content soup CONTENT_SELECTORS) as [c|] eqn:Hsel.
    + left. apply select_content_some in Hsel
        as (pre & sel & post & Hl & Hs & Hw & Hpre).
      exists pre, sel, post, c. auto.
    + right. split; [|reflexivity].
      intros s c'. now apply select_content_none.
  - intros selector c H. now apply find_first in H.
Qed.

(** C1. The code at a region of exactly 100 words: the first match of
    [.post-content] holds two paragraphs of 50 words, 100 words in its
    strings and in the word count reported for it; line 83 glues the two
    paragraphs, counts 99 words, and the loop passes the region over for the
    [article] that follows. *)
Theorem C1_region_of_100_words_passed_over :
  Bs4.select_one ".post-content" Case.split_post = Some Case.split_region
  /\ List.map token_count (Bs4.strings Case.split_region) = [50; 50]
  /\ token_count (body_text_of Case.split_region) = 100
  /\ words Case.split_region = 99
  /\ select_content Case.split_post CONTENT_SELECTORS = Some Case.long_article
  /\ content_area_of Case.split_post = Case.long_article.
Proof. repeat split; vm_compute; reflexivity. Qed.

(** A [.post-content] block of exactly 100 words is accepted. *)
Example content_area_100_words :
  words (Tag "div" {[ "class" := "card post-content" ]}
           [ NavigableString (Sample.n_words 100) ]) = 100
  /\ content_area_of (Sample.page 100) =
       Tag "div" {[ "class" := "card post-content" ]}
         [ NavigableString (Sample.n_words 100) ].
Proof. split; vm_compute; reflexivity. Qed.

(** One of 99 words is rejected and the next selectors are tried: the
    [article] is accepted. *)
Example content_area_99_words :
  words (Tag "div" {[ "class" := "card post-content" ]}
           [ NavigableString (Sample.n_words 99) ]) = 99
  /\ Bs4.select_one ".post-content" (Sample.page 99) =
       Some (Tag "div" {[ "class" := "card post-content" ]}
               [ NavigableString (Sample.n_words 99) ])
  /\ content_area_of (Sample.page 99) =
       Tag "article" ∅
         [ Tag "h2" ∅ [ NavigableString "Section" ];
           Tag "p" ∅ [ NavigableString (Sample.n_words 150) ] ].
Proof. repeat split; vm_compute; reflexivity. Qed.

(** Without a body element, and with no candidate of 100 words, the content
    area is the whole document. *)
Example content_area_whole_document :
  content_area_of Sample.fragment = Sample.fragment.
Proof. vm_compute. reflexivity. Qed.

(** ** Trimmed text *)

Lemma clean_strip (s : string) : clean s -> Py.strip s = s.
Proof. intros [Hl Hr]. unfold Py.strip. now rewrite Hl. Qed.

Lemma rstrip_by_idem (p : ascii -> bool) (s : string) :
  Py.rstrip_by p (Py.rstrip_by p s) = Py.rstrip_by p s.
Proof.
  induction s as [|c s IH]; [reflexivity|].
  cbn [Py.rstrip_by].
  destruct (Py.rstrip_by p s) as [|d r] eqn:Hr.
  - destruct (p c) eqn:Hc; [reflexivity|].
    cbn [Py.rstrip_by]. now rewrite Hc.
  - cbn [Py.rstrip_by]. cbn [Py.rstrip_by] in IH.
    destruct (Py.rstrip_by p r) as [|e r'] eqn:Hr'.
    + destruct (p d); [discriminate|]. congruence.
    + congruence.
Qed.

Lemma lstrip_length (t : string) :
  String.length (Py.lstrip t) <= String.length t.
Proof.
  induction t as [|d t IH]; simpl; [lia|].
  destruct (Py.isspace d); simpl; lia.
Qed.

(** A string that [lstrip] leaves alone does not start with whitespace. *)
Lemma lstrip_fixed (c : ascii) (s : string) :
  Py.lstrip (String c s) = String c s -> Py.isspace c = false.
Proof.
  cbn [Py.lstrip]. destruct (Py.isspace c); [|reflexivity].
  intros H. pose proof (lstrip_length s) as Hlen.
  rewrite H in Hlen. simpl in Hlen. lia.
Qed.

Lemma lstrip_rstrip (s : string) :
  Py.lstrip s = s -> Py.lstrip (Py.rstrip s) = Py.rstrip s.
Proof.
  destruct s as [|c s]; [reflexivity|].
  intros Hc%lstrip_fixed. unfold Py.rstrip. cbn [Py.rstrip_by].
  destruct (Py.rstrip_by Py.isspace s); rewrite ?Hc; cbn [Py.lstrip];
    now rewrite Hc.
Qed.

Lemma lstrip_idem (s : string) : Py.lstrip (Py.lstrip s) = Py.lstrip s.
Proof.
  induction s as [|c s IH]; [reflexivity|].
  cbn [Py.lstrip]. destruct (Py.isspace c) eqn:Hc; [exact IH|].
  cbn [Py.lstrip]. now rewrite Hc.
Qed.

Lemma strip_clean (s : string) : clean (Py.strip s).
Proof.
  unfold Py.strip. split.
  - apply lstrip_rstrip, lstrip_idem.
  - apply rstrip_by_idem.
Qed.

Lemma lstrip_app (a b : string) :
  a <> "" -> Py.lstrip a = a -> Py.lstrip (a +:+ b) = a +:+ b.
Proof.
  destruct a as [|c a]; [congruence|]. intros _ Hc%lstrip_fixed.
  rewrite str_app_cons. cbn [Py.lstrip]. now rewrite Hc.
Qed.

Lemma rstrip_by_app (p : ascii -> bool) (a b : string) :
  b <> "" -> Py.rstrip_by p b = b -> Py.rstrip_by p (a +:+ b) = a +:+ b.
Proof.
  intros Hb Hr. induction a as [|c a IH]; [exact Hr|].
  rewrite str_app_cons. cbn [Py.rstrip_by]. rewrite IH.
  destruct (a +:+ b) eqn:Hab; [|reflexivity].
  destruct a; [|discriminate]. rewrite str_app_nil_l in Hab. congruence.
Qed.

Lemma app_nonempty_l (a b : string) : a <> "" -> a +:+ b <> "".
Proof. destruct a; [congruence|]. intros _. rewrite str_app_cons. discriminate. Qed.

(** Joining trimmed, non-empty pieces gives a trimmed string. *)
Lemma join_clean (sep : string) (l : list string) :
  Forall (fun s => s <> "" /\ clean s) l ->
  clean (Py.join sep l) /\ (l <> [] -> Py.join sep l <> "").
Proof.
  induction 1 as [|w ws [Hne Hw] Hws [IHc IHn]].
  - split; [split; reflexivity|congruence].
  - cbn [Py.join]. destruct ws as [|v ws].
    + split; [exact Hw|auto].
    + assert (Hj : Py.join sep (v :: ws) <> "") by (apply IHn; discriminate).
      split; [|intros _; now apply app_nonempty_l].
      destruct Hw as [Hlw Hrw]. destruct IHc as [_ Hrj]. split.
      * now apply lstrip_app.
      * rewrite <- str_app_assoc. apply rstrip_by_app; assumption.
Qed.

Lemma get_text_clean (sep : string) (n : Node) : clean (Bs4.get_text sep n).
Proof.
  unfold Bs4.get_text. apply join_clean.
  apply List.Forall_forall. intros s Hs.
  apply filter_In in Hs as [Hin Hne].
  apply in_map_iff in Hin as (t & <- & _).
  split; [|apply strip_clean].
  destruct (Py.strip t); [discriminate|discriminate].
Qed.

(** ** Title *)

Lemma join_glued (l : list string) : Py.join "" l = Spec.glued l.
Proof.
  induction l as [|w ws IH]; [reflexivity|].
  cbn [Py.join Spec.glued]. destruct ws as [|v ws].
  - cbn [Spec.glued]. now rewrite str_app_nil_r.
  - now rewrite str_app_nil_l, IH.
Qed.

(** C8 (amended). Title resolution: the title is read from the first h1
    element of the document in document order; without any h1, from the
    first title element; without either, it is the empty string.  What is
    read from the element is each of its strings trimmed, the empty ones
    dropped and the rest glued with nothing between them (one string gives
    that string trimmed); the result has no whitespace at either end.
    Whenever the parser and [urlparse] accept their inputs the record is
    returned with this title and a null error. *)
Theorem C8_title_resolution (soup : Node) :
  let text_of element :=
    Spec.glued (List.filter Bs4.nonempty
                  (List.map Py.strip (Bs4.strings element))) in
  ((exists before h1 after,
      Bs4.descendants soup = before ++ h1 :: after
      /\ Bs4.is_tag_named "h1" h1 = true
      /\ Forall (fun d => Bs4.is_tag_named "h1" d = false) before
      /\ title_of soup = text_of h1)
   \/ (Forall (fun d => Bs4.is_tag_named "h1" d = false)
         (Bs4.descendants soup)
       /\ exists before t after,
            Bs4.descendants soup = before ++ t :: after
            /\ Bs4.is_tag_named "title" t = true
            /\ Forall (fun d => Bs4.is_tag_named "title" d = false) before
            /\ title_of soup = text_of t)
   \/ (Forall (fun d => Bs4.is_tag_named "h1" d = false)
         (Bs4.descendants soup)
       /\ Forall (fun d => Bs4.is_tag_named "title" d = false)
            (Bs4.descendants soup)
       /\ title_of soup = ""))
  /\ (forall element s,
        Bs4.strings element = [s] -> text_of element = Py.strip s)
  /\ Py.strip (title_of soup) = title_of soup
  /\ (forall html_parser urlparse text url r,
        html_parser text = Some soup -> urlparse url = Some r ->
        exists rec,
          extract html_parser urlparse text url = Some rec
          /\ rec !! "title" = Some (VStr (title_of soup))
          /\ rec !! "error" = Some VNone).
Proof.
  intros text_of.
  assert (Htext : forall n, Bs4.get_text "" n = text_of n).
  { intros n. unfold Bs4.get_text. apply join_glued. }
  split; [|split; [|split]].
  - unfold title_of, Bs4.find.
    destruct (List.find (Bs4.is_tag_named "h1") (Bs4.descendants soup))
      as [h1|] eqn:Hh.
    + left. apply find_first in Hh as (pre & post & Hd & Hm & Hpre).
      exists pre, h1, post. rewrite <- Htext. auto.
    + right. apply find_nothing in Hh.
      destruct (List.find (Bs4.is_tag_named "title") (Bs4.descendants soup))
        as [t|] eqn:Ht.
      * left. split; [exact Hh|].
        apply find_first in Ht as (pre & post & Hd & Hm & Hpre).
        exists pre, t, post. rewrite <- Htext. auto.
      * right. apply find_nothing in Ht. auto.
  - intros element s Hs. subst text_of. cbn beta. rewrite Hs.
    cbn [List.map List.filter].
    destruct (Py.strip s) as [|a s0]; cbn [Bs4.nonempty Spec.glued];
      [reflexivity|now rewrite str_app_nil_r].
  - apply clean_strip. unfold title_of.
    destruct (Bs4.find "h1" soup); [apply get_text_clean|].
    destruct (Bs4.find "title" soup); [apply get_text_clean|].
    split; reflexivity.
  - intros html_parser urlparse text url r Hp Hu.
    destruct (extract_total html_parser urlparse text url soup r Hp Hu)
      as (rec & He).
    exists rec. split; [exact He|].
    apply extract_shape in He as (soup' & r' & Hp' & _ & ->).
    rewrite Hp in Hp'. injection Hp' as <-.
    split; reflexivity.
Qed.

(** C8, as stated, fails: the first h1 of the document is
    [<h1> Hello <b>World</b></h1>], whose text is " Hello World" and whose
    trimmed text is "Hello World"; the title returned is "HelloWorld".
    Likewise [<h1>My <em>Great</em> Post</h1>] gives "MyGreatPost". *)
Lemma C8_counterexample :
  Bs4.find "h1" Sample.fragment =
    Some (Tag "h1" ∅ [ NavigableString " Hello ";
                       Tag "b" ∅ [ NavigableString "World" ] ])
  /\ Spec.trimmed_text
       (Tag "h1" ∅ [ NavigableString " Hello ";
                     Tag "b" ∅ [ NavigableString "World" ] ])
     = "Hello World"
  /\ title_of Sample.fragment = "HelloWorld"
  /\ (exists rec,
        fst (fetch_post unit (Sample.serve "<h1> Hello <b>World</b></h1>")
               Sample.html_parser Sample.urlparse
               "https://x.com/blog/my-post/" tt) = Some rec
        /\ rec !! "title" = Some (VStr "HelloWorld"))
  /\ title_of Case.inline_heading = "MyGreatPost".
Proof.
  split; [vm_compute; reflexivity|]. split; [vm_compute; reflexivity|].
  split; [vm_compute; reflexivity|]. split; [|vm_compute; reflexivity].
  eexists. split; vm_compute; reflexivity.
Qed.

(** The title of a document with an h1 of several strings, and one with a
    title element only. *)
Example title_samples :
  title_of Sample.fragment = "HelloWorld"
  /\ title_of (Sample.page 100) = "A page"
  /\ title_of (Tag "[document]" ∅ [ NavigableString "text only" ]) = "".
Proof. repeat split; vm_compute; reflexivity. Qed.

(** ** Slug *)

Lemma rstrip_by_length (p : ascii -> bool) (s : string) :
  String.length (Py.rstrip_by p s) <= String.length s.
Proof.
  induction s as [|c s IH]; [reflexivity|].
  cbn [Py.rstrip_by]. destruct (Py.rstrip_by p s).
  - destruct (p c); simpl; lia.
  - simpl in *. lia.
Qed.

Lemma rstrip_by_snoc (p : ascii -> bool) (t : string) (c : ascii) :
  p c = true -> Py.rstrip_by p (t +:+ String c "") = Py.rstrip_by p t.
Proof.
  intros Hc. induction t as [|d t IH].
  - rewrite str_app_nil_l. cbn [Py.rstrip_by]. now rewrite Hc.
  - rewrite str_app_cons. cbn [Py.rstrip_by]. now rewrite IH.
Qed.

Lemma rstrip_by_no_trailing (p : ascii -> bool) (s t : string) (c : ascii) :
  p c = true -> Py.rstrip_by p s <> t +:+ String c "".
Proof.
  intros Hc H.
  pose proof (rstrip_by_idem p s) as Hi. rewrite H in Hi.
  rewrite (rstrip_by_snoc p t c Hc) in Hi.
  pose proof (rstrip_by_length p t) as Hl. rewrite Hi in Hl.
  rewrite str_length_app in Hl. simpl in Hl. lia.
Qed.

Lemma rstrip_slashes (s : string) :
  exists k, s = Py.rstrip_by (Ascii.eqb slash) s +:+ slashes k.
Proof.
  induction s as [|c s [k IH]].
  - now exists 0.
  - cbn [Py.rstrip_by].
    destruct (Py.rstrip_by (Ascii.eqb slash) s) as [|d r] eqn:Hr.
    + rewrite str_app_nil_l in IH. destruct (Ascii.eqb slash c) eqn:Hc.
      * apply Ascii.eqb_eq in Hc as <-. exists (S k). now rewrite IH.
      * exists k. now rewrite str_app_cons, str_app_nil_l, <- IH.
    + exists k. now rewrite str_app_cons, <- IH.
Qed.

Lemma contains_char_cons (d c : ascii) (s : string) :
  Py.contains (String d "") (String c s) =
  Ascii.eqb d c || Py.contains (String d "") s.
Proof.
  cbn [Py.contains Py.startswith]. now rewrite andb_true_r.
Qed.

(** [s.split(d)]: no piece has the separator; a string without the separator
    is its only piece; otherwise the last piece is what follows the last
    separator. *)
Lemma split_on_spec (d : ascii) (s : string) :
  let l := Py.split_on d s in
  l <> []
  /\ Forall (fun w => Py.contains (String d "") w = false) l
  /\ (Py.contains (String d "") s = false -> l = [s])
  /\ (Py.contains (String d "") s = true ->
      2 <= length l
      /\ exists pre, s = pre +:+ String d (List.last l "")).
Proof.
  induction s as [|c s IH]; cbn zeta in *.
  - split; [discriminate|]. split; [repeat constructor|].
    split; [reflexivity|]. discriminate.
  - destruct IH as (Hne & Hall & Hno & Hyes).
    cbn [Py.split_on]. rewrite contains_char_cons.
    rewrite (Ascii.eqb_sym d c).
    destruct (Ascii.eqb c d) eqn:Hc.
    + apply Ascii.eqb_eq in Hc as ->.
      split; [discriminate|]. split; [constructor; [reflexivity|exact Hall]|].
      split; [discriminate|]. intros _.
      destruct (Py.split_on d s) as [|w ws] eqn:Hl; [congruence|].
      split; [simpl; lia|].
      change (List.last ("" :: w :: ws) "") with (List.last (w :: ws) "").
      destruct (Py.contains (String d "") s) eqn:Hs.
      * destruct (Hyes eq_refl) as (_ & pre & ->).
        exists (String d pre). now rewrite str_app_cons.
      * specialize (Hno eq_refl). injection Hno as -> ->.
        exists "". reflexivity.
    + destruct (Py.split_on d s) as [|w ws] eqn:Hl; [congruence|].
      split; [discriminate|]. split.
      * inversion Hall as [|? ? Hw Hws]; subst. constructor; [|exact Hws].
        rewrite contains_char_cons, (Ascii.eqb_sym d c), Hc. exact Hw.
      * simpl orb. split.
        -- intros Hs. specialize (Hno Hs). injection Hno as -> ->. reflexivity.
        -- intros Hs. destruct (Hyes Hs) as (Hlen & pre & Hpre).
           split; [exact Hlen|].
           destruct ws as [|v ws]; [simpl in Hlen; lia|].
           change (List.last (String c w :: v :: ws) "")
             with (List.last (v :: ws) "").
           change (List.last (w :: v :: ws) "")
             with (List.last (v :: ws) "") in Hpre.
           exists (String c pre). now rewrite str_app_cons, <- Hpre.
Qed.

Lemma last_Forall {A : Type} (P : A -> Prop) (l : list A) (d : A) :
  l <> [] -> Forall P l -> P (List.last l d).
Proof.
  induction l as [|a l IH]; [congruence|]. intros _ H.
  inversion H as [|? ? Ha Hl]; subst. destruct l as [|b l]; [exact Ha|].
  apply IH; [discriminate|exact Hl].
Qed.

(** C4 (amended). Slug derivation: the path with all its trailing slashes
    stripped is [q]; when [q] is empty the slug is "post"; otherwise the slug
    is not empty, has no "/", and is [q] itself or what follows the last "/"
    of [q]; it is the "slug" of the record.  So "/blog/my-post/" and
    "/blog/my-post" give "my-post", "/" and "" give "post". *)
Theorem C4_slug_derivation (url_path : string) :
  let q := Py.rstrip_by (Ascii.eqb slash) url_path in
  let slug := slug_of_path url_path in
  (exists k, url_path = q +:+ slashes k)
  /\ (forall t, q <> t +:+ "/")
  /\ (q = "" -> slug = "post")
  /\ (q <> "" ->
      slug <> "" /\ Py.contains "/" slug = false
      /\ (q = slug \/ exists pre, q = pre +:+ "/" +:+ slug))
  /\ (forall html_parser urlparse text url r rec,
        urlparse url = Some r -> path r = url_path ->
        extract html_parser urlparse text url = Some rec ->
        rec !! "slug" = Some (VStr slug))
  /\ slug_of_path "/blog/my-post/" = "my-post"
  /\ slug_of_path "/blog/my-post" = "my-post"
  /\ slug_of_path "/" = "post"
  /\ slug_of_path "" = "post".
Proof.
  intros q slug.
  assert (Hq : forall t, q <> t +:+ "/").
  { intros t. apply rstrip_by_no_trailing. reflexivity. }
  split; [apply rstrip_slashes|]. split; [exact Hq|].
  split; [|split; [|split]].
  - intros H. subst slug. unfold slug_of_path. fold q. now rewrite H.
  - intros Hne. subst slug. unfold slug_of_path. fold q.
    destruct (split_on_spec slash q) as (Hl & Hall & Hno & Hyes).
    destruct (Py.contains "/" q) eqn:Hc.
    + destruct (Hyes Hc) as (_ & pre & Hpre).
      split; [|split].
      * intros He. rewrite He in Hpre. now apply (Hq pre).
      * apply (last_Forall (fun w => Py.contains "/" w = false)); assumption.
      * right. exists pre. exact Hpre.
    + destruct q as [|c q']; [congruence|]. simpl.
      split; [discriminate|]. split; [exact Hc|]. now left.
  - intros html_parser urlparse text url r rec Hu Hp He.
    apply extract_shape in He as (soup & r' & _ & Hu' & ->).
    rewrite Hu in Hu'. injection Hu' as <-. subst slug. now rewrite Hp.
  - repeat split; vm_compute; reflexivity.
Qed.

(** C4, as stated, fails: for the path "/blog/my-post//" of
    "https://x.com/blog/my-post//", stripping a single trailing slash leaves
    "/blog/my-post/", after whose last "/" nothing follows; the program
    strips both slashes and returns "my-post".  For "//" it returns "post". *)
Lemma C4_counterexample :
  Spec.slug "/blog/my-post//" = ""
  /\ slug_of_path "/blog/my-post//" = "my-post"
  /\ (exists rec,
        fst (fetch_post unit (Sample.serve "<h1>Hello</h1>")
               Sample.html_parser Sample.urlparse
               "https://x.com/blog/my-post//" tt) = Some rec
        /\ rec !! "slug" = Some (VStr "my-post"))
  /\ Spec.slug "//" = ""
  /\ slug_of_path "//" = "post".
Proof.
  split; [vm_compute; reflexivity|]. split; [vm_compute; reflexivity|].
  split; [|split; vm_compute; reflexivity].
  eexists. split; vm_compute; reflexivity.
Qed.

(** On the paths of the specification's examples the two agree. *)
Example slug_agrees_on_examples :
  Spec.slug "/blog/my-post/" = slug_of_path "/blog/my-post/"
  /\ Spec.slug "/blog/my-post" = slug_of_path "/blog/my-post"
  /\ Spec.slug "/" = slug_of_path "/"
  /\ Spec.slug "" = slug_of_path "".
Proof. repeat split; vm_compute; reflexivity. Qed.

(** ** Links *)

(** One turn of the loop adds the anchor's link to the list its class names,
    and to no other. *)
Lemma link_step_classify (domain : string) (il el : list Link)
    (a : Node * string) :
  link_step domain (il, el) a =
    (il ++ (if Spec.is_internal (Spec.classify domain (snd a))
            then [link_of a] else []),
     el ++ (if Spec.is_external (Spec.classify domain (snd a))
            then [link_of a] else [])).
Proof.
  unfold link_step, Spec.classify, link_of.
  destruct (negb (Bs4.nonempty (snd a)) || Py.startswith "#" (snd a)
            || Py.startswith "mailto:" (snd a)).
  - simpl. now rewrite !List.app_nil_r.
  - destruct (Bs4.nonempty domain && Py.contains domain (snd a)).
    + simpl. now rewrite List.app_nil_r.
    + destruct (Py.startswith "/" (snd a)).
      * simpl. now rewrite List.app_nil_r.
      * destruct (Py.startswith "http" (snd a)); simpl;
          now rewrite !List.app_nil_r.
Qed.

Lemma fold_link_step (domain : string) (anchors : list (Node * string)) :
  forall il el,
    fold_left (link_step domain) anchors (il, el) =
      (il ++ List.map link_of
               (List.filter
                  (fun a => Spec.is_internal (Spec.classify domain (snd a)))
                  anchors),
       el ++ List.map link_of
               (List.filter
                  (fun a => Spec.is_external (Spec.classify domain (snd a)))
                  anchors)).
Proof.
  induction anchors as [|a anchors IH]; intros il el.
  - simpl. now rewrite !List.app_nil_r.
  - cbn [fold_left List.filter]. rewrite link_step_classify, IH.
    destruct (Spec.is_internal (Spec.classify domain (snd a)));
      destruct (Spec.is_external (Spec.classify domain (snd a)));
      cbn [List.map]; now rewrite <- ?List.app_assoc, ?List.app_nil_r.
Qed.

(** C5 (amended). Link classification: [domain] being the request URL's
    network location ([urlparse(url).netloc], the host with any port and
    userinfo the URL spells), an anchor with a non-empty href that starts
    with neither "#" nor "mailto:" is internal if [domain] is not empty and
    occurs in the href, or the href starts with "/"; otherwise external if
    the href starts with "http"; otherwise dropped, as are the hrefs that are
    empty or start with "#" or "mailto:".  Each list has the links of its
    class in document order, duplicates kept, and these are the record's
    "internal_links" and "external_links". *)
Theorem C5_link_classification (domain : string) (content_area : Node) :
  let anchors := Bs4.find_all_a_href content_area in
  collect_links domain content_area =
    (List.map link_of
       (List.filter (fun a => Spec.is_internal (Spec.classify domain (snd a)))
          anchors),
     List.map link_of
       (List.filter (fun a => Spec.is_external (Spec.classify domain (snd a)))
          anchors))
  /\ (forall html_parser urlparse text url soup r rec,
        urlparse url = Some r -> netloc r = domain ->
        html_parser text = Some soup ->
        content_area_of soup = content_area ->
        extract html_parser urlparse text url = Some rec ->
        rec !! "internal_links" =
          Some (VLinks (fst (collect_links domain content_area)))
        /\ rec !! "external_links" =
          Some (VLinks (snd (collect_links domain content_area)))).
Proof.
  intros anchors. split.
  - unfold collect_links. fold anchors. now rewrite fold_link_step.
  - intros html_parser urlparse text url soup r rec Hu Hn Hp Hc He.
    apply extract_shape in He as (soup' & r' & Hp' & Hu' & ->).
    rewrite Hu in Hu'. injection Hu' as <-.
    rewrite Hp in Hp'. injection Hp' as <-. rewrite Hn, Hc.
    split; reflexivity.
Qed.

(** The specification's examples, the request URL being on x.com. *)
Example links_of_fragment :
  collect_links "x.com" Sample.fragment =
    ([ {| link_text := "About"; href := "/about" |};
       {| link_text := "Other"; href := "https://x.com/other" |} ],
     [ {| link_text := "Page"; href := "https://other.com/page" |} ]).
Proof. vm_compute. reflexivity. Qed.

(** C5, as stated, fails: for the request URL
    "https://x.com:8080/blog/my-post/" the hostname is "x.com" and the
    network location "x.com:8080"; the href "https://x.com/other" contains
    the hostname, so the claim makes it internal, but it does not contain the
    network location, and the program lists it as external.  And with an
    empty [domain], which every href contains, the program still lists
    "https://other.com/page" as external. *)
Lemma C5_counterexample :
  Sample.urlparse "https://x.com:8080/blog/my-post/" =
    Some {| netloc := "x.com:8080"; path := "/blog/my-post/" |}
  /\ Spec.hostname "x.com:8080" = "x.com"
  /\ Spec.classify_by_hostname (Spec.hostname "x.com:8080")
       "https://x.com/other" = Spec.Internal
  /\ (exists rec,
        fst (fetch_post unit (Sample.serve "<h1>Hello</h1>")
               Sample.html_parser Sample.urlparse
               "https://x.com:8080/blog/my-post/" tt) = Some rec
        /\ rec !! "internal_links" =
             Some (VLinks [ {| link_text := "About"; href := "/about" |} ])
        /\ rec !! "external_links" =
             Some (VLinks
                     [ {| link_text := "Other";
                          href := "https://x.com/other" |};
                       {| link_text := "Page";
                          href := "https://other.com/page" |} ]))
  /\ Spec.classify_by_hostname "" "https://other.com/page" = Spec.Internal
  /\ collect_links "" Sample.fragment =
       ([ {| link_text := "About"; href := "/about" |} ],
        [ {| link_text := "Other"; href := "https://x.com/other" |};
          {| link_text := "Page"; href := "https://other.com/page" |} ]).
Proof.
  split; [vm_compute; reflexivity|]. split; [vm_compute; reflexivity|].
  split; [vm_compute; reflexivity|].
  split; [|split; vm_compute; reflexivity].
  eexists. repeat split; vm_compute; reflexivity.
Qed.

(** C10. Link-list disjointness: one turn of the loop leaves both lists as
    they were, or appends the anchor's link to exactly one of them; so the
    two lists together never hold more links than there are anchors. *)
Theorem C10_link_lists_disjoint (domain : string) :
  (forall il el a,
     link_step domain (il, el) a = (il, el)
     \/ link_step domain (il, el) a = (il ++ [link_of a], el)
     \/ link_step domain (il, el) a = (il, el ++ [link_of a]))
  /\ (forall content_area,
        length (fst (collect_links domain content_area))
        + length (snd (collect_links domain content_area))
        <= length (Bs4.find_all_a_href content_area)).
Proof.
  split.
  - intros il el a. rewrite link_step_classify.
    destruct (Spec.classify domain (snd a)); simpl; rewrite ?List.app_nil_r; auto.
  - intros content_area. unfold collect_links. rewrite fold_link_step.
    cbn [fst snd app]. rewrite !length_map.
    induction (Bs4.find_all_a_href content_area) as [|a l IH]; [simpl; lia|].
    cbn [List.filter].
    destruct (Spec.classify domain (snd a)); simpl; lia.
Qed.

(** ** Body text and word count *)

Lemma emit_run_app (k : nat) (t u : string) :
  Py.emit_run k t +:+ u = Py.emit_run k (t +:+ u).
Proof.
  unfold Py.emit_run. destruct (Nat.leb 3 k); now rewrite str_app_assoc.
Qed.

Lemma emit_run_newlines (k : nat) (t : string) :
  Py.emit_run k t = Py.newlines (if Nat.leb 3 k then 2 else k) +:+ t.
Proof. unfold Py.emit_run. now destruct (Nat.leb 3 k). Qed.

(** A run of [k] newlines before a character that is not a newline. *)
Lemma sub_newlines_run (k : nat) :
  forall p c b,
    Ascii.eqb c Py.nl = false ->
    Py.sub_newlines_from p (Py.newlines k +:+ String c b) =
    Py.emit_run (p + k) (String c (Py.sub_newlines_from 0 b)).
Proof.
  induction k as [|k IH]; intros p c b Hc.
  - rewrite str_app_nil_l, Nat.add_0_r. cbn [Py.sub_newlines_from].
    now rewrite Hc.
  - cbn [Py.newlines]. rewrite str_app_cons. cbn [Py.sub_newlines_from].
    rewrite Ascii.eqb_refl, IH by exact Hc. f_equal. lia.
Qed.

(** The scan starts afresh after a character that is not a newline. *)
Lemma sub_newlines_app (a : string) :
  forall p c x,
    Ascii.eqb c Py.nl = false ->
    Py.sub_newlines_from p (a +:+ String c x) =
    Py.sub_newlines_from p (a +:+ String c "") +:+ Py.sub_newlines_from 0 x.
Proof.
  induction a as [|d a IH]; intros p c x Hc.
  - rewrite !str_app_nil_l. cbn [Py.sub_newlines_from]. rewrite Hc.
    rewrite emit_run_app, str_app_cons.
    unfold Py.emit_run at 2. cbn [Nat.leb Py.newlines].
    now rewrite !str_app_nil_l.
  - rewrite !str_app_cons. cbn [Py.sub_newlines_from].
    destruct (Ascii.eqb d Py.nl).
    + now apply IH.
    + rewrite (IH 0 c x Hc). now rewrite emit_run_app, str_app_cons.
Qed.

Lemma sub_newlines_snoc (a : string) :
  forall p c,
    Ascii.eqb c Py.nl = false ->
    exists y, Py.sub_newlines_from p (a +:+ String c "") = y +:+ String c "".
Proof.
  induction a as [|d a IH]; intros p c Hc.
  - rewrite str_app_nil_l. cbn [Py.sub_newlines_from]. rewrite Hc.
    rewrite emit_run_newlines.
    exists (Py.newlines (if Nat.leb 3 p then 2 else p)).
    unfold Py.emit_run. cbn [Nat.leb Py.newlines]. now rewrite str_app_nil_l.
  - rewrite str_app_cons. cbn [Py.sub_newlines_from].
    destruct (Ascii.eqb d Py.nl).
    + now apply IH.
    + destruct (IH 0 c Hc) as [y ->]. rewrite emit_run_newlines.
      exists (Py.newlines (if Nat.leb 3 p then 2 else p) +:+ String d y).
      now rewrite str_app_assoc, str_app_cons.
Qed.

Lemma short_runs_newlines (j : nat) (c : ascii) (x : string) :
  j <= 2 -> Ascii.eqb c Py.nl = false ->
  short_runs 0 (Py.newlines j +:+ String c x) = short_runs 0 x.
Proof.
  intros Hj Hc.
  destruct j as [|[|[|j]]]; [| | |lia];
    cbn [Py.newlines]; rewrite ?str_app_cons, ?str_app_nil_l;
    cbn [short_runs]; rewrite ?Ascii.eqb_refl, Hc; reflexivity.
Qed.

Lemma short_runs_only_newlines (j : nat) :
  j <= 2 -> short_runs 0 (Py.newlines j) = true.
Proof.
  intros Hj. destruct j as [|[|[|j]]]; [| | |lia]; reflexivity.
Qed.

Lemma sub_newlines_short_runs (s : string) :
  forall p, short_runs 0 (Py.sub_newlines_from p s) = true.
Proof.
  induction s as [|c s IH]; intros p; cbn [Py.sub_newlines_from].
  - rewrite emit_run_newlines, str_app_nil_r.
    apply short_runs_only_newlines. destruct (Nat.leb 3 p) eqn:H; [lia|].
    apply Nat.leb_gt in H. lia.
  - destruct (Ascii.eqb c Py.nl) eqn:Hc; [apply IH|].
    rewrite emit_run_newlines, short_runs_newlines; [apply IH| |exact Hc].
    destruct (Nat.leb 3 p) eqn:H; [lia|]. apply Nat.leb_gt in H. lia.
Qed.

Lemma short_runs_three (pre post : string) :
  forall r, short_runs r (pre +:+ Py.newlines 3 +:+ post) = false.
Proof.
  induction pre as [|c pre IH]; intros r.
  - rewrite str_app_nil_l. cbn [Py.newlines]. rewrite !str_app_cons.
    cbn [short_runs]. rewrite !Ascii.eqb_refl.
    destruct r as [|[|r]]; reflexivity.
  - rewrite str_app_cons. cbn [short_runs].
    destruct (Ascii.eqb c Py.nl); [|apply IH].
    rewrite IH. apply andb_false_r.
Qed.

Lemma isspace_nl (c : ascii) :
  Py.isspace c = false -> Ascii.eqb c Py.nl = false.
Proof.
  intros H. destruct (Ascii.eqb c Py.nl) eqn:Hc; [|reflexivity].
  apply Ascii.eqb_eq in Hc. subst c. discriminate.
Qed.

Lemma snoc_decomposition (s : string) :
  s <> "" -> exists t c, s = t +:+ String c "".
Proof.
  induction s as [|d s IH]; [congruence|]. intros _.
  destruct s as [|e s].
  - now exists "", d.
  - destruct IH as (t & c & ->); [discriminate|].
    exists (String d t), c. now rewrite str_app_cons.
Qed.

(** The substitution keeps a trimmed string trimmed. *)
Lemma re_sub_newlines_clean (s : string) :
  clean s -> clean (Py.re_sub_newlines s).
Proof.
  intros [Hl Hr]. destruct s as [|c s]; [split; reflexivity|].
  pose proof (lstrip_fixed c s Hl) as Hc.
  split.
  - unfold Py.re_sub_newlines. cbn [Py.sub_newlines_from].
    rewrite (isspace_nl c Hc). unfold Py.emit_run. cbn [Nat.leb Py.newlines].
    rewrite str_app_nil_l. cbn [Py.lstrip]. now rewrite Hc.
  - destruct (snoc_decomposition (String c s)) as (t & e & He);
      [discriminate|].
    rewrite He in Hr |- *.
    assert (Hsp : Py.isspace e = false).
    { destruct (Py.isspace e) eqn:Hsp; [|reflexivity]. exfalso.
      unfold Py.rstrip in Hr. rewrite (rstrip_by_snoc _ t e Hsp) in Hr.
      pose proof (rstrip_by_length Py.isspace t) as Hlen.
      rewrite Hr, str_length_app in Hlen. simpl in Hlen. lia. }
    destruct (sub_newlines_snoc t 0 e (isspace_nl e Hsp)) as [y Hy].
    unfold Py.re_sub_newlines. rewrite Hy.
    apply rstrip_by_app; [discriminate|].
    cbn [Py.rstrip_by]. now rewrite Hsp.
Qed.

(** [s.split()]: a whitespace character ends a token. *)
Lemma split_starts_word (c : ascii) (s : string) :
  Py.isspace c = false -> Py.split (String c s) <> [].
Proof.
  intros Hc. cbn [Py.split]. rewrite Hc.
  destruct s as [|d s]; [discriminate|].
  destruct (Py.isspace d); [discriminate|].
  destruct (Py.split (String d s)); discriminate.
Qed.

Lemma split_app_space (a b : string) (c : ascii) :
  Py.isspace c = true ->
  Py.split (a +:+ String c b) = Py.split a ++ Py.split b.
Proof.
  intros Hc. induction a as [|x a IH].
  - rewrite str_app_nil_l. cbn [Py.split]. now rewrite Hc.
  - rewrite str_app_cons. cbn [Py.split].
    destruct (Py.isspace x) eqn:Hx; [exact IH|].
    destruct a as [|y a].
    + rewrite str_app_nil_l in *. rewrite Hc. cbn [Py.split] in IH.
      rewrite Hc in IH. cbn [Py.split]. rewrite Hc. reflexivity.
    + rewrite str_app_cons in *. destruct (Py.isspace y) eqn:Hy.
      * now rewrite IH.
      * rewrite IH. pose proof (split_starts_word y a Hy) as Hne.
        destruct (Py.split (String y a)); [congruence|reflexivity].
Qed.

Lemma split_word (w : string) :
  w <> "" -> no_space w = true -> Py.split w = [w].
Proof.
  induction w as [|c w IH]; [congruence|]. intros _ Hw.
  cbn [no_space] in Hw. apply andb_true_iff in Hw as [Hc Hw].
  apply negb_true_iff in Hc. cbn [Py.split]. rewrite Hc.
  destruct w as [|d w]; [reflexivity|].
  pose proof Hw as Hw'. cbn [no_space] in Hw'.
  apply andb_true_iff in Hw' as [Hd _]. apply negb_true_iff in Hd.
  rewrite Hd, IH; [reflexivity|discriminate|exact Hw].
Qed.

(** C6 (amended). Body-text normalization and word count: the body text is
    the content area's strings, each trimmed and the empty ones dropped,
    joined by a newline (one newline between any two of them, whether a block
    boundary lies between them or not), after the substitution; it has no
    whitespace at either end.  The substitution rewrites a run of [k]
    newlines between two other characters to two newlines when [k] is 3 or
    more (4 newlines become 2) and leaves a shorter run as it is, so that no
    three consecutive newlines remain in the body text.  The record's
    "word_count" is the number of tokens of its "body_text", the tokens being
    delimited by whitespace (spaces, and newlines and tabs as well): a
    whitespace character separates the tokens on its two sides, and a
    non-empty string without whitespace is one token. *)
Theorem C6_body_text_and_word_count (content_area : Node) :
  let pieces :=
    List.filter Bs4.nonempty (List.map Py.strip (Bs4.strings content_area)) in
  let body_text := body_text_of content_area in
  body_text = Py.re_sub_newlines (Py.join (String Py.nl "") pieces)
  /\ (forall w v ws,
        Py.join (String Py.nl "") (w :: v :: ws) =
        w +:+ String Py.nl (Py.join (String Py.nl "") (v :: ws)))
  /\ Py.strip body_text = body_text
  /\ (forall a c k d b,
        Ascii.eqb c Py.nl = false -> Ascii.eqb d Py.nl = false ->
        Py.re_sub_newlines (a +:+ String c (Py.newlines k +:+ String d b)) =
        Py.re_sub_newlines (a +:+ String c "")
        +:+ Py.newlines (if Nat.leb 3 k then 2 else k)
        +:+ Py.re_sub_newlines (String d b))
  /\ (forall pre post, body_text <> pre +:+ Py.newlines 3 +:+ post)
  /\ (forall html_parser urlparse text url soup rec,
        html_parser text = Some soup ->
        content_area_of soup = content_area ->
        extract html_parser urlparse text url = Some rec ->
        rec !! "body_text" = Some (VStr body_text)
        /\ rec !! "word_count" = Some (VInt (length (Py.split body_text))))
  /\ (forall a b c,
        Py.isspace c = true ->
        length (Py.split (a +:+ String c b)) =
        length (Py.split a) + length (Py.split b))
  /\ (forall w, w <> "" -> no_space w = true -> length (Py.split w) = 1)
  /\ Py.isspace " " = true /\ Py.isspace Py.nl = true
  /\ Py.isspace (ascii_of_nat 9) = true
  /\ Py.re_sub_newlines ("a" +:+ Py.newlines 4 +:+ "b") =
     "a" +:+ Py.newlines 2 +:+ "b".
Proof.
  intros pieces body_text.
  assert (Htext : clean (Bs4.get_text (String Py.nl "") content_area))
    by apply get_text_clean.
  assert (Hbody : clean body_text).
  { apply re_sub_newlines_clean, Htext. }
  split; [reflexivity|].
  split; [reflexivity|].
  split; [now apply clean_strip|].
  split; [|split; [|split; [|split; [|split]]]].
  - intros a c k d b Hc Hd. unfold Py.re_sub_newlines.
    rewrite (sub_newlines_app a 0 c _ Hc).
    rewrite (sub_newlines_run k 0 d b Hd), emit_run_newlines.
    cbn [Py.sub_newlines_from]. rewrite Hd.
    unfold Py.emit_run. cbn [Nat.leb Py.newlines].
    now rewrite str_app_nil_l.
  - intros pre post H.
    pose proof (sub_newlines_short_runs
                  (Bs4.get_text (String Py.nl "") content_area) 0) as Hs.
    fold (Py.re_sub_newlines (Bs4.get_text (String Py.nl "") content_area))
      in Hs.
    change (Py.re_sub_newlines (Bs4.get_text (String Py.nl "") content_area))
      with body_text in Hs.
    rewrite H, short_runs_three in Hs. discriminate.
  - intros html_parser urlparse text' url soup rec Hp Hc He.
    apply extract_shape in He as (soup' & r & Hp' & _ & ->).
    rewrite Hp in Hp'. injection Hp' as <-. rewrite Hc.
    split; reflexivity.
  - intros a b c Hc. now rewrite (split_app_space a b c Hc), length_app.
  - intros w Hne Hw. now rewrite split_word.
  - repeat split; vm_compute; reflexivity.
Qed.

(** C6, as stated, fails: a region of two paragraphs, "one two" and
    "three four", has the body text "one two", a newline, "three four";
    the space character delimits 3 tokens in it, and the word count returned
    is 4.  And the single paragraph [<p>Hello <b>World</b>!</p>], with no
    block boundary inside, has a body text of three lines. *)
Lemma C6_counterexample :
  body_text_of (content_area_of Case.two_paragraphs) =
    "one two" +:+ String Py.nl "three four"
  /\ Spec.space_token_count ("one two" +:+ String Py.nl "three four") = 3
  /\ (exists rec,
        fst (fetch_post unit (Sample.serve "<p>one two</p><p>three four</p>")
               (fun _ => Some Case.two_paragraphs) Sample.urlparse
               "https://x.com/blog/my-post/" tt) = Some rec
        /\ rec !! "body_text" =
             Some (VStr ("one two" +:+ String Py.nl "three four"))
        /\ rec !! "word_count" = Some (VInt 4))
  /\ body_text_of (content_area_of Case.inline_paragraph) =
       "Hello" +:+ String Py.nl ("World" +:+ String Py.nl "!").
Proof.
  split; [vm_compute; reflexivity|]. split; [vm_compute; reflexivity|].
  split; [|vm_compute; reflexivity].
  eexists. repeat split; vm_compute; reflexivity.
Qed.

(** The body text and word count of a small document: the strings are
    joined by newlines, which delimit tokens as spaces do. *)
Example body_text_of_fragment :
  body_text_of
    (Tag "div" ∅
       [ Tag "p" ∅ [ NavigableString " one two " ];
         Tag "p" ∅ [ NavigableString ("three" +:+ Py.newlines 4 +:+ "four") ] ])
  = "one two" +:+ Py.newlines 1 +:+ "three" +:+ Py.newlines 2 +:+ "four"
  /\ length (Py.split
       ("one two" +:+ Py.newlines 1 +:+ "three" +:+ Py.newlines 2 +:+ "four"))
     = 4.
Proof. split; vm_compute; reflexivity. Qed.

(** ** The theorems at sample inputs *)

Lemma X14_content_area_discovery_witness :
  exists before after,
    Bs4.descendants (Sample.page 100) =
      before
      ++ Tag "div" {[ "class" := "card post-content" ]}
           [ NavigableString (Sample.n_words 100) ]
      :: after
    /\ Bs4.selector_matches ".post-content"
         (Tag "div" {[ "class" := "card post-content" ]}
            [ NavigableString (Sample.n_words 100) ]) = true
    /\ Forall (fun d => Bs4.selector_matches ".post-content" d = false) before.
Proof.
  refine (proj2 (X14_content_area_discovery (Sample.page 100))
            ".post-content" _ _).
  vm_compute. reflexivity.
Defined.

Lemma C4_slug_derivation_witness :
  slug_of_path "/blog/my-post/" <> ""
  /\ Py.contains "/" (slug_of_path "/blog/my-post/") = false
  /\ (Py.rstrip_by (Ascii.eqb slash) "/blog/my-post/" =
        slug_of_path "/blog/my-post/"
      \/ exists pre,
           Py.rstrip_by (Ascii.eqb slash) "/blog/my-post/" =
           pre +:+ "/" +:+ slug_of_path "/blog/my-post/").
Proof.
  refine (proj1 (proj2 (proj2 (proj2
            (C4_slug_derivation "/blog/my-post/")))) _).
  vm_compute. discriminate.
Defined.

Lemma C5_link_classification_witness :
  exists rec,
    extract Sample.html_parser Sample.urlparse "<h1>Hello</h1>"
      "https://x.com/blog/my-post/" = Some rec
    /\ rec !! "internal_links" =
         Some (VLinks (fst (collect_links "x.com" Sample.fragment)))
    /\ rec !! "external_links" =
         Some (VLinks (snd (collect_links "x.com" Sample.fragment))).
Proof.
  eexists. split; [vm_compute; reflexivity|].
  refine (proj2 (C5_link_classification "x.com" Sample.fragment)
            Sample.html_parser Sample.urlparse "<h1>Hello</h1>"
            "https://x.com/blog/my-post/" Sample.fragment
            {| netloc := "x.com"; path := "/blog/my-post/" |} _ _ _ _ _ _);
    vm_compute; reflexivity.
Defined.

Lemma C6_body_text_and_word_count_witness :
  length (Py.split ("one" +:+ String Py.nl "two")) =
  length (Py.split "one") + length (Py.split "two").
Proof.
  refine (proj1 (proj2 (proj2 (proj2 (proj2 (proj2 (proj2
            (C6_body_text_and_word_count Sample.fragment)))))))
            "one" "two" Py.nl _).
  vm_compute. reflexivity.
Defined.

Lemma C8_title_resolution_witness :
  exists rec,
    extract Sample.html_parser Sample.urlparse "<h1>Hello</h1>"
      "https://x.com/blog/my-post/" = Some rec
    /\ rec !! "title" = Some (VStr (title_of Sample.fragment))
    /\ rec !! "error" = Some VNone.
Proof.
  refine (proj2 (proj2 (proj2 (C8_title_resolution Sample.fragment)))
            Sample.html_parser Sample.urlparse "<h1>Hello</h1>"
            "https://x.com/blog/my-post/"
            {| netloc := "x.com"; path := "/blog/my-post/" |} _ _);
    vm_compute; reflexivity.
Defined.

(** The end-to-end scenario: the content block is found by its class, the
    title comes from the title element, and the link outside the block is not
    collected. *)
Example fetch_post_scenario :
  exists rec,
    fst (fetch_post unit (Sample.serve "<html>a post</html>")
           (fun _ => Some Sample.post) Sample.urlparse
           "https://x.com/blog/my-post/" tt) = Some rec
    /\ rec !! "error" = Some VNone
    /\ rec !! "url" = Some (VStr "https://x.com/blog/my-post/")
    /\ rec !! "slug" = Some (VStr "my-post")
    /\ rec !! "title" = Some (VStr "My Post")
    /\ rec !! "headings" =
         Some (VHeadings [ {| level := "h2"; heading_text := "Intro" |} ])
    /\ rec !! "word_count" = Some (VInt 154)
    /\ rec !! "internal_links" =
         Some (VLinks [ {| link_text := "About"; href := "/about" |};
                        {| link_text := "More"; href := "https://x.com/more" |} ])
    /\ rec !! "external_links" =
         Some (VLinks [ {| link_text := "Elsewhere";
                           href := "https://other.com/" |} ]).
Proof. eexists. repeat split; vm_compute; reflexivity. Qed.

(** * Further properties of the program *)

(** ** The fetch loop: order and early exit *)

Section FetchLoopOrder.

Context (World : Type).
Context (requests_get :
  string -> gmap string string -> nat -> World -> Response * World).

(** The loop's result comes from the first header set that is not rejected:
    those before it each recorded a reason, and the world returned is the one
    its request left. *)
Lemma fetch_loop_first_accepted (url : string)
    (hs : list (gmap string string)) :
  forall le w t le' w',
    fetch_loop World requests_get url hs le w = (Some t, le', w') ->
    exists pre h post w0,
      hs = pre ++ h :: post
      /\ length (recorded_reasons World requests_get url hs w) = length pre
      /\ requests_get url h 20 w0 = (Ok200 t, w')
      /\ _is_blocked_page t = false.
Proof.
  induction hs as [|h hs IH]; intros le w t le' w' H; cbn [fetch_loop] in H.
  - discriminate.
  - cbn [recorded_reasons].
    destruct (requests_get url h 20 w) as [[e|text] w1] eqn:Hget.
    + destruct (IH _ _ _ _ _ H) as (pre & h' & post & w0 & -> & Hl & Hg & Hb).
      exists (h :: pre), h', post, w0. simpl. auto.
    + destruct (_is_blocked_page text) eqn:Hb.
      * destruct (IH _ _ _ _ _ H) as (pre & h' & post & w0 & -> & Hl & Hg & Hb').
        exists (h :: pre), h', post, w0. simpl. auto.
      * injection H as <- <- <-. exists [], h, hs, w. auto.
Qed.

Lemma fetch_loop_app_accepted (url : string)
    (hs more : list (gmap string string)) :
  forall le w t le' w',
    fetch_loop World requests_get url hs le w = (Some t, le', w') ->
    fetch_loop World requests_get url (hs ++ more) le w = (Some t, le', w')
    /\ recorded_reasons World requests_get url (hs ++ more) w =
       recorded_reasons World requests_get url hs w.
Proof.
  induction hs as [|h hs IH]; intros le w t le' w' H; cbn [fetch_loop] in H.
  - discriminate.
  - cbn [app fetch_loop recorded_reasons].
    destruct (requests_get url h 20 w) as [[e|text] w1] eqn:Hget.
    + destruct (IH _ _ _ _ _ H) as [-> ->]. auto.
    + destruct (_is_blocked_page text) eqn:Hb.
      * destruct (IH _ _ _ _ _ H) as [-> ->]. auto.
      * auto.
Qed.

End FetchLoopOrder.

(** X1. The header sets are tried in order and the loop stops at the first
    response it accepts: the accepted text is the body served to the first
    header set that was not rejected, every header set before it recorded a
    reason, and the header sets after it are never requested (appending more
    of them changes neither the result nor the world the requests leave). *)
Theorem X1_fetch_stops_at_first_accepted (World : Type)
    (requests_get :
       string -> gmap string string -> nat -> World -> Response * World)
    (url : string) (hs : list (gmap string string))
    (last_error last_error' : option string) (w w' : World) (text : string) :
  fetch_loop World requests_get url hs last_error w
    = (Some text, last_error', w') ->
  (exists pre h post w0,
     hs = pre ++ h :: post
     /\ length (recorded_reasons World requests_get url hs w) = length pre
     /\ requests_get url h 20 w0 = (Ok200 text, w')
     /\ _is_blocked_page text = false)
  /\ (forall more,
        fetch_loop World requests_get url (hs ++ more) last_error w
          = (Some text, last_error', w')
        /\ recorded_reasons World requests_get url (hs ++ more) w =
           recorded_reasons World requests_get url hs w).
Proof.
  intros H. split.
  - exact (fetch_loop_first_accepted World requests_get url hs _ _ _ _ _ H).
  - intros more.
    exact (fetch_loop_app_accepted World requests_get url hs more _ _ _ _ _ H).
Qed.

Lemma X1_fetch_stops_at_first_accepted_witness :
  fetch_loop nat (Sample.serve_second "<h1>Hello</h1>")
    "https://x.com/blog/my-post/" (_HEADER_SETS ++ [∅; ∅]) None 0
  = (Some "<h1>Hello</h1>", Some "Read timed out", 2).
Proof.
  refine (proj1 (proj2 (X1_fetch_stops_at_first_accepted nat
            (Sample.serve_second "<h1>Hello</h1>")
            "https://x.com/blog/my-post/" _HEADER_SETS None
            (Some "Read timed out") 0 2 "<h1>Hello</h1>" _) [∅; ∅])).
  vm_compute. reflexivity.
Defined.

(** ** The three outcomes of [fetch_post] *)

Section Outcomes.

Context (World : Type).
Context (requests_get :
  string -> gmap string string -> nat -> World -> Response * World).
Context (html_parser : string -> option Node).
Context (urlparse : string -> option ParseResult).

(** Either every header set recorded a reason and the loop has no response,
    or fewer did and it has one. *)
Lemma fetch_loop_cases (url : string) (hs : list (gmap string string))
    (w : World) :
  (length (recorded_reasons World requests_get url hs w) = length hs
   /\ exists le w',
        fetch_loop World requests_get url hs None w = (None, le, w'))
  \/ (length (recorded_reasons World requests_get url hs w) < length hs
      /\ exists t le w',
           fetch_loop World requests_get url hs None w = (Some t, le, w')).
Proof.
  pose proof (recorded_reasons_length World requests_get url hs w) as Hle.
  destruct (Nat.eq_dec
              (length (recorded_reasons World requests_get url hs w))
              (length hs)) as [Heq|Hne].
  - left. split; [exact Heq|].
    destruct (fetch_loop_exhausted World requests_get url hs None w Heq)
      as (w' & H). eauto.
  - right. split; [lia|].
    apply fetch_loop_accepted. lia.
Qed.

Lemma extract_none (text url : string) :
  extract html_parser urlparse text url = None <->
  html_parser text = None \/ urlparse url = None.
Proof.
  split.
  - intros H. destruct (html_parser text) as [soup|] eqn:Hp; [|now left].
    right. destruct (urlparse url) as [r|] eqn:Hu; [|reflexivity].
    destruct (extract_total html_parser urlparse text url soup r Hp Hu)
      as [rec Hr].
    congruence.
  - unfold extract. intros [Hp|Hu].
    + now rewrite Hp.
    + destruct (html_parser text) as [soup|]; [|reflexivity]. rewrite Hu.
      now destruct (collect_links "" (content_area_of soup)).
Qed.

End Outcomes.

(** X2. [fetch_post] returns a record with a null error exactly when some
    header set's response was accepted, the parser accepts its text and
    [urlparse] accepts the URL; the reasons recorded for the header sets
    rejected before it do not appear in that record.  It returns a record
    whose error is a string exactly when every header set was rejected.  A
    response was accepted exactly when fewer reasons were recorded than there
    are header sets. *)
Theorem X2_success_iff_accepted (World : Type)
    (requests_get :
       string -> gmap string string -> nat -> World -> Response * World)
    (html_parser : string -> option Node)
    (urlparse : string -> option ParseResult)
    (hs : list (gmap string string)) (url : string) (w : World) :
  let result :=
    fst (fetch_post_with World requests_get html_parser urlparse hs url w) in
  let rejected := length (recorded_reasons World requests_get url hs w) in
  let accepted text :=
    exists le w',
      fetch_loop World requests_get url hs None w = (Some text, le, w') in
  ((exists rec, result = Some rec /\ rec !! "error" = Some VNone)
   <-> exists text,
         accepted text /\ html_parser text <> None /\ urlparse url <> None)
  /\ ((exists rec e, result = Some rec /\ rec !! "error" = Some (VStr e))
      <-> rejected = length hs)
  /\ ((exists text, accepted text) <-> rejected < length hs).
Proof.
  intros result rejected accepted. subst result rejected accepted.
  cbn beta.
  destruct (fetch_loop_cases World requests_get url hs w)
    as [(Hall & le & w' & Hloop)|(Hsome & t & le & w' & Hloop)].
  - rewrite (fetch_post_with_exhausted _ _ html_parser urlparse _ _ _ _ _ Hloop).
    cbn [fst]. split; [|split]; split.
    + intros (rec & [= <-] & He). discriminate.
    + intros (text & (le' & w'' & H) & _). congruence.
    + intros _. exact Hall.
    + intros _. eexists _, _. split; reflexivity.
    + intros (text & le' & w'' & H). congruence.
    + intros H. lia.
  - rewrite (fetch_post_with_accepted _ _ html_parser urlparse _ _ _ _ _ _ Hloop).
    cbn [fst]. split; [|split]; split.
    + intros (rec & He & _). exists t. split; [eauto|].
      assert (Hn : extract html_parser urlparse t url <> None) by congruence.
      rewrite extract_none in Hn. split; intros H; apply Hn; auto.
    + intros (text & (le' & w'' & H) & Hp & Hu).
      rewrite Hloop in H. injection H as <- _ _.
      destruct (html_parser t) as [soup|] eqn:Hs; [|congruence].
      destruct (urlparse url) as [r|] eqn:Hr; [|congruence].
      destruct (extract_total html_parser urlparse t url soup r Hs Hr)
        as [rec He].
      exists rec. split; [exact He|].
      apply extract_shape in He as (soup' & r' & _ & _ & ->). reflexivity.
    + intros (rec & e & He & Herr).
      apply extract_shape in He as (soup' & r' & _ & _ & ->). discriminate.
    + intros H. lia.
    + intros _. exact Hsome.
    + intros _. eauto.
Qed.

(** The browser profile succeeds after the bot profile was refused: the
    record has a null error. *)
Example success_after_refusal :
  recorded_reasons nat (serve_browser_only "<h1>Hello</h1>")
    "https://x.com/blog/my-post/" _HEADER_SETS 0
  = [ "403 Client Error: Forbidden" ]
  /\ exists rec,
       fst (fetch_post nat (serve_browser_only "<h1>Hello</h1>")
              Sample.html_parser Sample.urlparse
              "https://x.com/blog/my-post/" 0) = Some rec
       /\ rec !! "error" = Some VNone.
Proof.
  split; [vm_compute; reflexivity|].
  eexists. split; vm_compute; reflexivity.
Qed.

(** X3. [fetch_post] raises exactly when a response was accepted and then
    the parser raises on its text (line 68 is in no [try]) or [urlparse]
    raises on the URL (the call of line 125 is not guarded, unlike that of
    line 99); when every header set is rejected it returns the error record
    without calling either, so it does not raise then. *)
Theorem X3_raises_iff_accepted_and_library_raises (World : Type)
    (requests_get :
       string -> gmap string string -> nat -> World -> Response * World)
    (html_parser : string -> option Node)
    (urlparse : string -> option ParseResult)
    (hs : list (gmap string string)) (url : string) (w : World) :
  fst (fetch_post_with World requests_get html_parser urlparse hs url w) = None
  <-> exists text le w',
        fetch_loop World requests_get url hs None w = (Some text, le, w')
        /\ (html_parser text = None \/ urlparse url = None).
Proof.
  destruct (fetch_loop_cases World requests_get url hs w)
    as [(Hall & le & w' & Hloop)|(Hsome & t & le & w' & Hloop)].
  - rewrite (fetch_post_with_exhausted _ _ html_parser urlparse _ _ _ _ _ Hloop).
    cbn [fst]. split; [discriminate|].
    intros (text & le' & w'' & H & _). congruence.
  - rewrite (fetch_post_with_accepted _ _ html_parser urlparse _ _ _ _ _ _ Hloop).
    cbn [fst]. rewrite extract_none. split.
    + intros H. eauto 6.
    + intros (text & le' & w'' & H & Hor).
      rewrite Hloop in H. now injection H as <- _ _.
Qed.

(** With a [urlparse] that raises, or a parser that does: an exception when
    the page was fetched, the error record when it was not. *)
Example library_raises_outcomes :
  fst (fetch_post unit (Sample.serve "<h1>Hello</h1>") Sample.html_parser
         urlparse_raises "http://[x" tt) = None
  /\ fst (fetch_post unit (Sample.serve "<h1>Hello</h1>") parser_rejects
            Sample.urlparse "https://x.com/blog/my-post/" tt) = None
  /\ fst (fetch_post unit Sample.refuse parser_rejects
            urlparse_raises "http://[x" tt)
     = Some (<["error" := VStr "Connection refused"]>
             (<["url" := VStr "http://[x"]> ∅)).
Proof. repeat split; vm_compute; reflexivity. Qed.

(** ** The block-page test *)

Lemma slice_to_app_split (n : nat) (a b : string) :
  Py.slice_to n (a +:+ b) =
  Py.slice_to n a +:+ Py.slice_to (n - String.length a) b.
Proof.
  revert n. induction a as [|c a IH]; intros n.
  - rewrite !str_app_nil_l. simpl. rewrite Nat.sub_0_r.
    destruct n; reflexivity.
  - rewrite str_app_cons. destruct n as [|n]; [reflexivity|].
    cbn [Py.slice_to String.length Nat.sub]. now rewrite IH, str_app_cons.
Qed.

Lemma contains_app_l (sub x y : string) :
  Py.contains sub x = true -> Py.contains sub (x +:+ y) = true.
Proof.
  rewrite !contains_spec. intros (pre & post & ->).
  exists pre, (post +:+ y). now rewrite !str_app_assoc.
Qed.

(** X4. Text appended to a body that is blocked leaves it blocked: the
    test reads a prefix of the body, and a signal found in the prefix of the
    shorter body is in the prefix of the longer one. *)
Theorem X4_blocked_page_append (a b : string) :
  _is_blocked_page a = true -> _is_blocked_page (a +:+ b) = true.
Proof.
  unfold _is_blocked_page.
  rewrite !existsb_exists. intros (sig & Hin & Hc).
  exists sig. split; [exact Hin|].
  rewrite slice_to_app_split, lower_app. now apply contains_app_l.
Qed.

Lemma X4_blocked_page_append_witness :
  _is_blocked_page ("<title>Just a moment...</title>" +:+ "<p>more</p>")
  = true.
Proof.
  refine (X4_blocked_page_append _ _ _).
  vm_compute. reflexivity.
Defined.

(** ** Slug: trailing slashes and the last segment *)

Lemma rstrip_slash_slashes (p : string) (k : nat) :
  Py.rstrip_by (Ascii.eqb slash) (p +:+ slashes k) =
  Py.rstrip_by (Ascii.eqb slash) p.
Proof.
  revert p. induction k as [|k IH]; intros p.
  - now rewrite str_app_nil_r.
  - cbn [slashes].
    change (String "/" (slashes k)) with (String "/" "" +:+ slashes k).
    rewrite <- str_app_assoc, IH. now apply rstrip_by_snoc.
Qed.

Lemma rstrip_slash_fixed (s : string) :
  Py.contains "/" s = false -> Py.rstrip_by (Ascii.eqb slash) s = s.
Proof.
  induction s as [|c s IH]; [reflexivity|].
  rewrite contains_char_cons. intros H.
  apply orb_false_iff in H as [Hc Hs].
  cbn [Py.rstrip_by]. rewrite (IH Hs).
  destruct s; [|reflexivity]. unfold slash. now rewrite Hc.
Qed.

Lemma split_on_app (d : ascii) (a b : string) :
  Py.split_on d (a +:+ String d b) = Py.split_on d a ++ Py.split_on d b.
Proof.
  induction a as [|c a IH].
  - rewrite str_app_nil_l. cbn [Py.split_on]. now rewrite Ascii.eqb_refl.
  - rewrite str_app_cons. cbn [Py.split_on]. rewrite IH.
    destruct (Ascii.eqb c d); [reflexivity|].
    destruct (split_on_spec d a) as (Hne & _).
    destruct (Py.split_on d a); [congruence|reflexivity].
Qed.

(** X5. The slug does not depend on trailing slashes, and it is the last
    segment of the path: a path that ends, before any trailing slashes, in a
    non-empty segment without "/" has that segment as its slug, whatever the
    directories before it. *)
Theorem X5_slug_last_segment :
  (forall p k, slug_of_path (p +:+ slashes k) = slug_of_path p)
  /\ (forall dir seg k,
        seg <> "" -> Py.contains "/" seg = false ->
        slug_of_path (dir +:+ "/" +:+ seg +:+ slashes k) = seg)
  /\ (forall seg k,
        seg <> "" -> Py.contains "/" seg = false ->
        slug_of_path (seg +:+ slashes k) = seg).
Proof.
  assert (H1 : forall p k, slug_of_path (p +:+ slashes k) = slug_of_path p).
  { intros p k. unfold slug_of_path. now rewrite rstrip_slash_slashes. }
  split; [exact H1|]. split.
  - intros dir seg k Hne Hno.
    rewrite <- !str_app_assoc, H1, str_app_assoc.
    unfold slug_of_path.
    assert (Hr : Py.rstrip_by (Ascii.eqb slash) (dir +:+ "/" +:+ seg)
                 = dir +:+ "/" +:+ seg).
    { rewrite <- str_app_assoc. apply rstrip_by_app; [exact Hne|].
      now apply rstrip_slash_fixed. }
    rewrite Hr.
    assert (Hc : Py.contains "/" (dir +:+ "/" +:+ seg) = true).
    { apply contains_spec. now exists dir, seg. }
    rewrite Hc.
    change (dir +:+ "/" +:+ seg) with (dir +:+ String slash seg).
    rewrite split_on_app.
    destruct (split_on_spec slash seg) as (_ & _ & Hone & _).
    rewrite (Hone Hno). now rewrite last_last.
  - intros seg k Hne Hno. rewrite H1. unfold slug_of_path.
    rewrite (rstrip_slash_fixed seg Hno), Hno.
    destruct seg; [congruence|reflexivity].
Qed.

Lemma X5_slug_last_segment_witness :
  slug_of_path ("/blog/2024" +:+ "/" +:+ "my-post" +:+ slashes 3) = "my-post".
Proof.
  refine (proj1 (proj2 X5_slug_last_segment) "/blog/2024" "my-post" 3 _ _).
  - discriminate.
  - vm_compute. reflexivity.
Defined.

(** ** What the two link lists hold *)

Lemma classify_internal (domain h : string) :
  Spec.is_internal (Spec.classify domain h) = true ->
  h <> "" /\ Py.startswith "#" h = false /\ Py.startswith "mailto:" h = false
  /\ ((domain <> "" /\ Py.contains domain h = true)
      \/ Py.startswith "/" h = true).
Proof.
  unfold Spec.classify.
  destruct (Bs4.nonempty h) eqn:Hn; [|discriminate]. cbn [negb orb].
  destruct (Py.startswith "#" h); [discriminate|]. cbn [orb].
  destruct (Py.startswith "mailto:" h); [discriminate|].
  intros H.
  split; [intros ->; discriminate|]. split; [reflexivity|].
  split; [reflexivity|].
  destruct (Bs4.nonempty domain) eqn:Hd; cbn [andb orb] in H.
  - destruct (Py.contains domain h).
    + left. split; [intros ->; discriminate|reflexivity].
    + right. cbn [orb] in H. destruct (Py.startswith "/" h); [reflexivity|].
      destruct (Py.startswith "http" h); discriminate.
  - right. destruct (Py.startswith "/" h); [reflexivity|].
    destruct (Py.startswith "http" h); discriminate.
Qed.

Lemma classify_external (domain h : string) :
  Spec.is_external (Spec.classify domain h) = true ->
  Py.startswith "http" h = true
  /\ Py.startswith "/" h = false
  /\ (domain = "" \/ Py.contains domain h = false).
Proof.
  unfold Spec.classify.
  destruct (negb (Bs4.nonempty h) || Py.startswith "#" h
            || Py.startswith "mailto:" h); [discriminate|].
  destruct (Bs4.nonempty domain) eqn:Hd; cbn [andb orb].
  - destruct (Py.contains domain h); [discriminate|]. cbn [orb].
    destruct (Py.startswith "/" h); [discriminate|].
    destruct (Py.startswith "http" h); [auto|discriminate].
  - destruct (Py.startswith "/" h); [discriminate|].
    destruct (Py.startswith "http" h); [|discriminate].
    intros _. split; [reflexivity|]. split; [reflexivity|].
    left. destruct domain; [reflexivity|discriminate].
Qed.

(** X6. What the two lists hold: every internal link has a non-empty href
    that starts with neither "#" nor "mailto:" and that contains the
    (non-empty) network location or starts with "/"; every external link has
    an href that starts with "http", does not start with "/" and does not
    contain the network location (unless that is empty).  So no href is in
    the wrong list, and the external hrefs are all absolute. *)
Theorem X6_link_lists_contents (domain : string) (content_area : Node) :
  Forall (fun l =>
            href l <> "" /\ Py.startswith "#" (href l) = false
            /\ Py.startswith "mailto:" (href l) = false
            /\ ((domain <> "" /\ Py.contains domain (href l) = true)
                \/ Py.startswith "/" (href l) = true))
         (fst (collect_links domain content_area))
  /\ Forall (fun l =>
               Py.startswith "http" (href l) = true
               /\ Py.startswith "/" (href l) = false
               /\ (domain = "" \/ Py.contains domain (href l) = false))
            (snd (collect_links domain content_area)).
Proof.
  unfold collect_links. rewrite fold_link_step. cbn [fst snd app].
  split; apply List.Forall_forall; intros l Hl;
    apply in_map_iff in Hl as (a & <- & Ha);
    apply filter_In in Ha as [_ Ha]; cbn [link_of href].
  - now apply classify_internal.
  - now apply classify_external.
Qed.

(** X7. Two ways into the internal list, whatever the rest of the href: an
    href that starts with "/" is internal for every request URL, the
    scheme-relative "//host/path" included; and an href that contains the
    network location anywhere (and starts with neither "#" nor "mailto:") is
    internal, whatever host it points to. *)
Theorem X7_internal_by_slash_or_substring (domain : string)
    (il el : list Link) (tag : Node) :
  (forall rest,
     link_step domain (il, el) (tag, "/" +:+ rest) =
     (il ++ [link_of (tag, "/" +:+ rest)], el))
  /\ (forall pre post,
        domain <> "" ->
        Py.startswith "#" (pre +:+ domain +:+ post) = false ->
        Py.startswith "mailto:" (pre +:+ domain +:+ post) = false ->
        link_step domain (il, el) (tag, pre +:+ domain +:+ post) =
        (il ++ [link_of (tag, pre +:+ domain +:+ post)], el)).
Proof.
  split.
  - intros rest. rewrite link_step_classify. cbn [snd].
    assert (Hc : Spec.classify domain ("/" +:+ rest) = Spec.Internal).
    { unfold Spec.classify.
      change ("/" +:+ rest) with (String "/" rest).
      cbn [Bs4.nonempty negb orb Py.startswith Ascii.eqb Bool.eqb andb].
      now rewrite orb_true_r. }
    rewrite Hc. cbn [Spec.is_internal Spec.is_external].
    now rewrite List.app_nil_r.
  - intros pre post Hd Hh Hm. rewrite link_step_classify. cbn [snd].
    assert (Hc : Spec.classify domain (pre +:+ domain +:+ post)
                 = Spec.Internal).
    { unfold Spec.classify. rewrite Hh, Hm.
      assert (Hne : Bs4.nonempty (pre +:+ domain +:+ post) = true).
      { destruct pre; [|reflexivity]. rewrite str_app_nil_l.
        destruct domain; [congruence|reflexivity]. }
      rewrite Hne. cbn [negb orb].
      assert (Hdn : Bs4.nonempty domain = true)
        by (destruct domain; [congruence|reflexivity]).
      assert (Hin : Py.contains domain (pre +:+ domain +:+ post) = true)
        by (apply contains_spec; eauto).
      now rewrite Hdn, Hin. }
    rewrite Hc. cbn [Spec.is_internal Spec.is_external].
    now rewrite List.app_nil_r.
Qed.

Lemma X7_internal_by_slash_or_substring_witness :
  link_step "x.com" ([], []) (NavigableString "", "https://evil.example/?ref=" +:+ "x.com" +:+ "/a") =
  ([link_of (NavigableString "", "https://evil.example/?ref=" +:+ "x.com" +:+ "/a")], []).
Proof.
  refine (proj2 (X7_internal_by_slash_or_substring "x.com" [] []
                   (NavigableString ""))
            "https://evil.example/?ref=" "/a" _ _ _).
  - discriminate.
  - vm_compute. reflexivity.
  - vm_compute. reflexivity.
Defined.

(** A scheme-relative href to another host is listed as internal. *)
Example scheme_relative_is_internal :
  collect_links "x.com"
    (Tag "div" ∅
       [ Tag "a" {[ "href" := "//cdn.other.com/lib.js" ]}
           [ NavigableString "lib" ] ])
  = ([ {| link_text := "lib"; href := "//cdn.other.com/lib.js" |} ], []).
Proof. vm_compute. reflexivity. Qed.

(** ** Headings *)

(** X8. The headings are one per h2 or h3 tag below the content area, in
    document order: as many as there are such tags, each with level "h2" or
    "h3" and a text without whitespace at either end; tags of any other name
    (h1, h4, ...) add nothing.  They are the record's "headings". *)
Theorem X8_headings (content_area : Node) :
  length (headings_of content_area) =
    length (List.filter
              (fun d => Bs4.is_tag_named "h2" d || Bs4.is_tag_named "h3" d)
              (Bs4.descendants content_area))
  /\ Forall (fun h => (level h = "h2" \/ level h = "h3")
                      /\ Py.strip (heading_text h) = heading_text h)
            (headings_of content_area)
  /\ List.map level (headings_of content_area) =
       List.map tag_name
         (List.filter
            (fun d => Bs4.is_tag_named "h2" d || Bs4.is_tag_named "h3" d)
            (Bs4.descendants content_area))
  /\ (forall html_parser urlparse text url soup rec,
        html_parser text = Some soup ->
        content_area_of soup = content_area ->
        extract html_parser urlparse text url = Some rec ->
        rec !! "headings" = Some (VHeadings (headings_of content_area))).
Proof.
  assert (Hf : Bs4.find_all ["h2"; "h3"] content_area =
               List.filter
                 (fun d => Bs4.is_tag_named "h2" d || Bs4.is_tag_named "h3" d)
                 (Bs4.descendants content_area)).
  { unfold Bs4.find_all. apply filter_ext. intros d.
    cbn [existsb]. now rewrite orb_false_r. }
  unfold headings_of. rewrite Hf.
  split; [now rewrite length_map|]. split; [|split].
  - apply List.Forall_forall. intros h Hh.
    apply in_map_iff in Hh as (d & <- & Hd).
    apply filter_In in Hd as [_ Hd]. cbn [level heading_text].
    split; [|apply clean_strip, get_text_clean].
    destruct d as [s|k s|name attrs cs]; [discriminate|discriminate|].
    cbn [Bs4.is_tag_named tag_name] in *.
    apply orb_true_iff in Hd as [H|H]; apply String.eqb_eq in H; auto.
  - rewrite List.map_map. reflexivity.
  - intros html_parser urlparse text url soup rec Hp Hc He.
    apply extract_shape in He as (soup' & r & Hp' & _ & ->).
    rewrite Hp in Hp'. injection Hp' as <-. rewrite Hc.
    unfold headings_of. rewrite Hf. reflexivity.
Qed.

Lemma X8_headings_witness :
  exists rec,
    extract (fun _ => Some Sample.post) Sample.urlparse "<html>a post</html>"
      "https://x.com/blog/my-post/" = Some rec
    /\ rec !! "headings" =
       Some (VHeadings (headings_of (content_area_of Sample.post))).
Proof.
  eexists. split; [vm_compute; reflexivity|].
  refine (proj2 (proj2 (proj2 (X8_headings (content_area_of Sample.post))))
            (fun _ => Some Sample.post) Sample.urlparse "<html>a post</html>"
            "https://x.com/blog/my-post/" Sample.post _ _ _ _);
    vm_compute; reflexivity.
Defined.

(** ** Tokens *)

(** [s.split()] on a string that starts with a character of a token. *)
Lemma split_cons (c : ascii) (x : string) :
  Py.isspace c = false ->
  Py.split (String c x) =
    if starts_space x then String c "" :: Py.split x
    else match Py.split x with
         | w :: ws => String c w :: ws
         | [] => [String c ""]
         end.
Proof.
  intros Hc. cbn [Py.split]. rewrite Hc.
  destruct x as [|d x]; [reflexivity|].
  cbn [starts_space]. now destruct (Py.isspace d).
Qed.

Lemma split_lstrip (s : string) : Py.split (Py.lstrip s) = Py.split s.
Proof.
  induction s as [|c s IH]; [reflexivity|].
  cbn [Py.lstrip]. destruct (Py.isspace c) eqn:Hc; [|reflexivity].
  rewrite IH. cbn [Py.split]. now rewrite Hc.
Qed.

Lemma rstrip_starts_space (s : string) :
  Py.rstrip s <> "" -> starts_space (Py.rstrip s) = starts_space s.
Proof.
  destruct s as [|c s]; [reflexivity|].
  unfold Py.rstrip. cbn [Py.rstrip_by].
  destruct (Py.rstrip_by Py.isspace s); [|reflexivity].
  destruct (Py.isspace c); [congruence|reflexivity].
Qed.

Lemma split_rstrip (s : string) : Py.split (Py.rstrip s) = Py.split s.
Proof.
  induction s as [|c s IH]; [reflexivity|].
  unfold Py.rstrip in *. cbn [Py.rstrip_by].
  destruct (Py.isspace c) eqn:Hc.
  - destruct (Py.rstrip_by Py.isspace s) as [|d r] eqn:Hr.
    + cbn [Py.split]. now rewrite Hc, <- IH.
    + cbn [Py.split]. rewrite Hc. exact IH.
  - pose proof (rstrip_starts_space s) as Hs. unfold Py.rstrip in Hs.
    destruct (Py.rstrip_by Py.isspace s) as [|d r] eqn:Hr.
    + rewrite (split_cons c s Hc), <- IH. cbn [Py.split].
      rewrite Hc. now destruct (starts_space s).
    + rewrite (split_cons c s Hc), (split_cons c (String d r) Hc).
      rewrite Hs by discriminate. now rewrite IH.
Qed.

Lemma split_strip (s : string) : Py.split (Py.strip s) = Py.split s.
Proof. unfold Py.strip. now rewrite split_rstrip, split_lstrip. Qed.

Lemma split_join_nl (l : list string) :
  Py.split (Py.join (String Py.nl "") l) = List.concat (List.map Py.split l).
Proof.
  induction l as [|w ws IH]; [reflexivity|].
  cbn [Py.join List.map List.concat]. destruct ws as [|v ws].
  - now rewrite List.app_nil_r.
  - change (String Py.nl "" +:+ Py.join (String Py.nl "") (v :: ws))
      with (String Py.nl (Py.join (String Py.nl "") (v :: ws))).
    rewrite split_app_space by reflexivity. now rewrite IH.
Qed.

Lemma length_concat_total (l : list (list string)) :
  length (List.concat l) = total (List.map (@length string) l).
Proof.
  induction l as [|x l IH]; [reflexivity|].
  cbn [List.concat List.map total]. now rewrite length_app, IH.
Qed.

Lemma total_tokens_filter (l : list string) :
  total (List.map token_count (List.filter Bs4.nonempty l)) =
  total (List.map token_count l).
Proof.
  induction l as [|s l IH]; [reflexivity|].
  cbn [List.filter]. destruct s as [|c s]; cbn [Bs4.nonempty];
    cbn [List.map total]; now rewrite IH.
Qed.

(** Gluing two strings merges at most the tokens on the two sides. *)
Lemma token_count_app_le (a b : string) :
  token_count (a +:+ b) <= token_count a + token_count b.
Proof.
  unfold token_count. induction a as [|c a IH].
  - rewrite str_app_nil_l. simpl. lia.
  - rewrite str_app_cons. destruct (Py.isspace c) eqn:Hc.
    + cbn [Py.split]. now rewrite Hc.
    + rewrite (split_cons c (a +:+ b) Hc), (split_cons c a Hc).
      destruct a as [|d a].
      * rewrite str_app_nil_l. cbn [starts_space Py.split].
        destruct (starts_space b); [simpl; lia|].
        destruct (Py.split b); simpl; lia.
      * rewrite str_app_cons in *. cbn [starts_space].
        destruct (Py.isspace d) eqn:Hd; [simpl in *; lia|].
        pose proof (split_starts_word d a Hd) as Hne1.
        pose proof (split_starts_word d (a +:+ b) Hd) as Hne2.
        destruct (Py.split (String d a)); [congruence|].
        destruct (Py.split (String d (a +:+ b))); [congruence|].
        simpl in *. lia.
Qed.

Lemma token_count_join_le (l : list string) :
  token_count (Py.join "" l) <= total (List.map token_count l).
Proof.
  induction l as [|w ws IH]; [unfold token_count; simpl; lia|].
  cbn [Py.join List.map total]. destruct ws as [|v ws].
  - cbn [List.map total]. lia.
  - rewrite str_app_nil_l.
    pose proof (token_count_app_le w (Py.join "" (v :: ws))). lia.
Qed.

(** The tokens of the text joined by newlines are those of its strings. *)
Lemma get_text_nl_tokens (n : Node) :
  token_count (Bs4.get_text (String Py.nl "") n) =
  total (List.map token_count (Bs4.strings n)).
Proof.
  unfold token_count at 1, Bs4.get_text.
  rewrite split_join_nl, length_concat_total, List.map_map.
  fold token_count.
  change (fun x => length (Py.split x)) with token_count.
  rewrite total_tokens_filter, List.map_map.
  f_equal. apply map_ext. intros s. unfold token_count.
  now rewrite split_strip.
Qed.

Lemma get_text_tokens_le (n : Node) :
  token_count (Bs4.get_text "" n) <=
  total (List.map token_count (Bs4.strings n)).
Proof.
  unfold Bs4.get_text.
  etransitivity; [apply token_count_join_le|].
  rewrite total_tokens_filter, List.map_map.
  apply Nat.eq_le_incl. f_equal. apply map_ext. intros s.
  unfold token_count. now rewrite split_strip.
Qed.

(** The substitution changes runs of newlines only: the tokens stay. *)
Lemma split_newlines_app (j : nat) (t : string) :
  Py.split (Py.newlines j +:+ t) = Py.split t.
Proof.
  induction j as [|j IH]; [reflexivity|].
  cbn [Py.newlines]. rewrite str_app_cons. cbn [Py.split].
  change (Py.isspace Py.nl) with true. cbn iota. exact IH.
Qed.

Lemma starts_space_newlines_app (j : nat) (t : string) :
  starts_space (Py.newlines j +:+ t) = Nat.ltb 0 j || starts_space t.
Proof. destruct j; reflexivity. Qed.

Lemma sub_newlines_tokens (s : string) :
  forall p,
    Py.split (Py.sub_newlines_from p s) = Py.split s
    /\ starts_space (Py.sub_newlines_from p s) =
       Nat.ltb 0 p || starts_space s.
Proof.
  induction s as [|c s IH]; intros p; cbn [Py.sub_newlines_from].
  - rewrite emit_run_newlines, split_newlines_app, starts_space_newlines_app.
    split; [reflexivity|]. destruct p as [|[|[|p]]]; reflexivity.
  - destruct (Ascii.eqb c Py.nl) eqn:Hc.
    + apply Ascii.eqb_eq in Hc. subst c. destruct (IH (S p)) as [H1 H2].
      rewrite H1, H2. cbn [Py.split starts_space].
      change (Py.isspace Py.nl) with true. cbn iota.
      split; [reflexivity|]. now rewrite orb_true_r.
    + rewrite emit_run_newlines, split_newlines_app,
        starts_space_newlines_app.
      destruct (IH 0) as [H1 H2]. cbn [Nat.ltb Nat.leb orb] in H2.
      split.
      * destruct (Py.isspace c) eqn:Hs.
        -- cbn [Py.split]. now rewrite Hs.
        -- now rewrite !(split_cons c _ Hs), H1, H2.
      * cbn [starts_space].
        destruct p as [|[|[|p]]]; cbn [Nat.leb Nat.ltb orb];
          try reflexivity.
Qed.

Lemma newlines_snoc (p : nat) (s : string) :
  Py.newlines (S p) +:+ s = Py.newlines p +:+ String Py.nl s.
Proof.
  induction p as [|p IH]; [reflexivity|].
  cbn [Py.newlines] in *. now rewrite !str_app_cons, <- IH.
Qed.

(** On a string without a run of three newlines the substitution changes
    nothing. *)
Lemma sub_newlines_short (s : string) :
  forall p, p <= 2 -> short_runs p s = true ->
            Py.sub_newlines_from p s = Py.newlines p +:+ s.
Proof.
  induction s as [|c s IH]; intros p Hp Hs.
  - cbn [Py.sub_newlines_from]. rewrite emit_run_newlines.
    destruct (Nat.leb 3 p) eqn:H; [apply Nat.leb_le in H; lia|reflexivity].
  - cbn [Py.sub_newlines_from short_runs] in *.
    destruct (Ascii.eqb c Py.nl) eqn:Hc.
    + apply Ascii.eqb_eq in Hc. subst c.
      apply andb_true_iff in Hs as [Hlt Hs]. apply Nat.ltb_lt in Hlt.
      rewrite IH by (try lia; exact Hs). apply newlines_snoc.
    + rewrite emit_run_newlines, (IH 0) by (try lia; exact Hs).
      destruct (Nat.leb 3 p) eqn:H; [apply Nat.leb_le in H; lia|].
      now rewrite str_app_nil_l.
Qed.

(** ** Word count *)

Lemma body_text_tokens (content_area : Node) :
  token_count (body_text_of content_area) =
  total (List.map token_count (Bs4.strings content_area)).
Proof.
  unfold body_text_of, Py.re_sub_newlines, token_count at 1.
  rewrite (proj1 (sub_newlines_tokens _ 0)).
  apply get_text_nl_tokens.
Qed.

(** X9. The word count is the number of whitespace-delimited tokens of the
    content area's text nodes, counted node by node and added up: joining
    the nodes by newlines merges no two tokens, and neither stripping nor the
    newline substitution changes a token.  It is the record's
    "word_count". *)
Theorem X9_word_count_is_total (content_area : Node) :
  token_count (body_text_of content_area) =
    total (List.map token_count (Bs4.strings content_area))
  /\ (forall html_parser urlparse text url soup rec,
        html_parser text = Some soup ->
        content_area_of soup = content_area ->
        extract html_parser urlparse text url = Some rec ->
        rec !! "word_count" =
          Some (VInt (total (List.map token_count
                               (Bs4.strings content_area))))).
Proof.
  split; [apply body_text_tokens|].
  intros html_parser urlparse text url soup rec Hp Hc He.
  apply extract_shape in He as (soup' & r & Hp' & _ & ->).
  rewrite Hp in Hp'. injection Hp' as <-. rewrite Hc.
  rewrite <- body_text_tokens. reflexivity.
Qed.

Lemma X9_word_count_is_total_witness :
  exists rec,
    extract (fun _ => Some Sample.post) Sample.urlparse "<html>a post</html>"
      "https://x.com/blog/my-post/" = Some rec
    /\ rec !! "word_count" =
       Some (VInt (total (List.map token_count
                            (Bs4.strings (content_area_of Sample.post))))).
Proof.
  eexists. split; [vm_compute; reflexivity|].
  refine (proj2 (X9_word_count_is_total (content_area_of Sample.post))
            (fun _ => Some Sample.post) Sample.urlparse "<html>a post</html>"
            "https://x.com/blog/my-post/" Sample.post _ _ _ _);
    vm_compute; reflexivity.
Defined.

Lemma short_runs_false (s : string) :
  forall r, r <= 2 -> short_runs r s = false ->
            exists pre post,
              Py.newlines r +:+ s = pre +:+ Py.newlines 3 +:+ post.
Proof.
  induction s as [|c s IH]; intros r Hr H; [discriminate|].
  cbn [short_runs] in H. destruct (Ascii.eqb c Py.nl) eqn:Hc.
  - apply Ascii.eqb_eq in Hc. subst c.
    destruct (Nat.ltb (S r) 3) eqn:Hlt.
    + apply Nat.ltb_lt in Hlt. cbn [andb] in H.
      destruct (IH (S r) ltac:(lia) H) as (pre & post & Heq).
      exists pre, post. now rewrite <- newlines_snoc.
    + apply Nat.ltb_ge in Hlt. assert (r = 2) as -> by lia.
      exists "", s. reflexivity.
  - destruct (IH 0 ltac:(lia) H) as (pre & post & Heq).
    rewrite str_app_nil_l in Heq.
    exists (Py.newlines r +:+ String c pre), post.
    now rewrite Heq, str_app_assoc, str_app_cons.
Qed.

(** X10. The newline substitution of line 119 changes a text exactly when
    the text has three consecutive newlines; applying it twice is applying it
    once; and it changes no token, so the word count of the body text is that
    of the text before the substitution. *)
Theorem X10_substitution_idempotent (s : string) :
  (Py.re_sub_newlines s = s <->
   forall pre post, s <> pre +:+ Py.newlines 3 +:+ post)
  /\ Py.re_sub_newlines (Py.re_sub_newlines s) = Py.re_sub_newlines s
  /\ Py.split (Py.re_sub_newlines s) = Py.split s.
Proof.
  assert (Hfix : forall t, short_runs 0 t = true -> Py.re_sub_newlines t = t).
  { intros t Ht. unfold Py.re_sub_newlines.
    rewrite (sub_newlines_short t 0) by (try lia; exact Ht).
    reflexivity. }
  split; [split|split].
  - intros Heq pre post H.
    pose proof (sub_newlines_short_runs s 0) as Hs.
    fold (Py.re_sub_newlines s) in Hs.
    rewrite Heq, H, short_runs_three in Hs. discriminate.
  - intros Hno. apply Hfix.
    destruct (short_runs 0 s) eqn:Hs; [reflexivity|].
    destruct (short_runs_false s 0 ltac:(lia) Hs) as (pre & post & H).
    rewrite str_app_nil_l in H. now apply Hno in H.
  - apply Hfix. apply (sub_newlines_short_runs s 0).
  - apply (proj1 (sub_newlines_tokens s 0)).
Qed.

(** X11. The content area's word count for the threshold (its strings glued
    without a separator, tokens merging across nodes) never exceeds the word
    count reported (its strings joined by newlines); so when a selector's
    candidate was accepted, the reported word count is at least 100. *)
Theorem X11_threshold_below_word_count (soup : Node) :
  words (content_area_of soup)
    <= token_count (body_text_of (content_area_of soup))
  /\ (forall c,
        select_content soup CONTENT_SELECTORS = Some c ->
        100 <= token_count (body_text_of (content_area_of soup)))
  /\ (forall html_parser urlparse text url rec c,
        html_parser text = Some soup ->
        select_content soup CONTENT_SELECTORS = Some c ->
        extract html_parser urlparse text url = Some rec ->
        exists n, rec !! "word_count" = Some (VInt n) /\ 100 <= n).
Proof.
  assert (Hle : forall n, words n <= token_count (body_text_of n)).
  { intros n. rewrite body_text_tokens. apply get_text_tokens_le. }
  assert (Hacc : forall c, select_content soup CONTENT_SELECTORS = Some c ->
                 100 <= token_count (body_text_of (content_area_of soup))).
  { intros c Hc. unfold content_area_of. rewrite Hc.
    apply select_content_some in Hc as (_ & _ & _ & _ & _ & Hw & _).
    specialize (Hle c). lia. }
  split; [apply Hle|]. split; [exact Hacc|].
  intros html_parser urlparse text url rec c Hp Hc He.
  apply extract_shape in He as (soup' & r & Hp' & _ & ->).
  rewrite Hp in Hp'. injection Hp' as <-.
  eexists. split; [reflexivity|]. exact (Hacc c Hc).
Qed.

Lemma X11_threshold_below_word_count_witness :
  100 <= token_count (body_text_of (content_area_of Sample.post)).
Proof.
  refine (proj1 (proj2 (X11_threshold_below_word_count Sample.post)) _ _).
  vm_compute. reflexivity.
Defined.

(** Two one-word paragraphs: one word for the threshold, two reported. *)
Example words_merge_across_nodes :
  let area :=
    Tag "div" ∅ [ Tag "p" ∅ [ NavigableString "one" ];
                  Tag "p" ∅ [ NavigableString "two" ] ] in
  words area = 1 /\ token_count (body_text_of area) = 2.
Proof. split; vm_compute; reflexivity. Qed.

Lemma clean_tokens (s : string) :
  clean s -> s <> "" -> Py.split s <> [].
Proof.
  intros [Hl _] Hne. destruct s as [|c s]; [congruence|].
  apply split_starts_word. now apply lstrip_fixed in Hl.
Qed.

Lemma total_zero (l : list nat) :
  total l = 0 <-> Forall (fun n => n = 0) l.
Proof.
  induction l as [|n l IH]; cbn [total].
  - split; [constructor|reflexivity].
  - split.
    + intros H. constructor; [lia|]. apply IH. lia.
    + intros H. inversion H as [|? ? Hn Hl]; subst. apply IH in Hl. lia.
Qed.

(** X12. Empty content: the body text is the empty string exactly when the
    word count is 0, and exactly when no text node of the content area has a
    token; it is never a string of whitespace only. *)
Theorem X12_empty_body_text (content_area : Node) :
  (body_text_of content_area = "" <->
   token_count (body_text_of content_area) = 0)
  /\ (body_text_of content_area = "" <->
      Forall (fun s => Py.split s = []) (Bs4.strings content_area)).
Proof.
  assert (Hclean : clean (body_text_of content_area)).
  { apply re_sub_newlines_clean, get_text_clean. }
  assert (H1 : body_text_of content_area = "" <->
               token_count (body_text_of content_area) = 0).
  { split.
    - intros ->. reflexivity.
    - intros H0. destruct (body_text_of content_area) as [|c b] eqn:Hb;
        [reflexivity|].
      exfalso. apply (clean_tokens _ Hclean); [discriminate|].
      unfold token_count in H0.
      now destruct (Py.split (String c b)). }
  split; [exact H1|].
  rewrite H1, body_text_tokens, total_zero, List.Forall_map.
  split; intros H; eapply List.Forall_impl; try exact H;
    intros s Hs; unfold token_count in *;
    destruct (Py.split s); [reflexivity|discriminate|reflexivity|discriminate].
Qed.

(** ** The content area lies within the document *)

(** Induction on a node, with the property known of every child. *)
Lemma Node_children_ind (P : Node -> Prop) :
  (forall s, P (NavigableString s)) ->
  (forall k s, P (SpecialString k s)) ->
  (forall name attrs cs, Forall P cs -> P (Tag name attrs cs)) ->
  forall n, P n.
Proof.
  intros Hs Hk Ht.
  refine (fix IH (n : Node) : P n :=
            match n with
            | NavigableString s => Hs s
            | SpecialString k s => Hk k s
            | Tag name attrs cs =>
                Ht name attrs cs
                  ((fix children (l : list Node) : Forall P l :=
                      match l with
                      | [] => @List.Forall_nil Node P
                      | c :: l' => @List.Forall_cons Node P c l' (IH c) (children l')
                      end) cs)
            end).
Qed.

Lemma in_descendants (c : Node) (name : string) (attrs : gmap string string)
    (cs : list Node) :
  In c (Bs4.descendants (Tag name attrs cs)) <->
  exists child, In child cs /\ (c = child \/ In c (Bs4.descendants child)).
Proof.
  cbn [Bs4.descendants]. rewrite in_flat_map. split.
  - intros (child & Hin & [<-|H]); exists child; auto.
  - intros (child & Hin & [->|H]); exists child; split; auto;
      [now left|now right].
Qed.

(** A descendant's descendants are descendants. *)
Lemma descendants_trans (n : Node) :
  forall c d,
    In c (Bs4.descendants n) -> In d (Bs4.descendants c) ->
    In d (Bs4.descendants n).
Proof.
  induction n as [s|k s|name attrs cs IH] using Node_children_ind;
    intros c d Hc Hd.
  - destruct Hc.
  - destruct Hc.
  - apply in_descendants in Hc as (child & Hin & Hc).
    apply in_descendants. exists child. split; [exact Hin|]. right.
    destruct Hc as [->|Hc]; [exact Hd|].
    rewrite List.Forall_forall in IH. exact (IH child Hin c d Hc Hd).
Qed.

Lemma content_area_within (soup : Node) :
  content_area_of soup = soup
  \/ In (content_area_of soup) (Bs4.descendants soup).
Proof.
  unfold content_area_of.
  destruct (select_content soup CONTENT_SELECTORS) as [c|] eqn:Hc.
  - right. apply select_content_some in Hc as (_ & sel & _ & _ & Hs & _).
    unfold Bs4.select_one in Hs. now apply find_some in Hs as [Hin _].
  - destruct (Bs4.find "body" soup) as [b|] eqn:Hb; [|now left].
    right. unfold Bs4.find in Hb. now apply find_some in Hb as [Hin _].
Qed.

Lemma content_area_descendants (soup d : Node) :
  In d (Bs4.descendants (content_area_of soup)) ->
  In d (Bs4.descendants soup).
Proof.
  destruct (content_area_within soup) as [->|Hin]; [auto|].
  now apply descendants_trans.
Qed.

(** A content block that is a script: its text is read from its [Script]
    strings, which the text of the tags around it skips. *)
Example script_content_area :
  content_area_of Case.script_page = Case.script_region
  /\ token_count (body_text_of Case.script_region) = 120
  /\ Bs4.get_text (String Py.nl "") Case.script_page = "Read on".
Proof. repeat split; vm_compute; reflexivity. Qed.

(** X13. Everything collected comes from the document fetched: the content
    area is the document or one of its descendants, every node below it is a
    node of the document, and so each of its headings is a heading the whole
    document would give, each internal link an internal link of the whole
    document, and each external link an external one. *)
Theorem X13_content_area_within_document (soup : Node) :
  let content_area := content_area_of soup in
  (content_area = soup \/ In content_area (Bs4.descendants soup))
  /\ (forall h, In h (headings_of content_area) -> In h (headings_of soup))
  /\ (forall domain l,
        In l (fst (collect_links domain content_area)) ->
        In l (fst (collect_links domain soup)))
  /\ (forall domain l,
        In l (snd (collect_links domain content_area)) ->
        In l (snd (collect_links domain soup)))
  /\ (forall d, In d (Bs4.descendants content_area) ->
                In d (Bs4.descendants soup)).
Proof.
  intros content_area. subst content_area.
  assert (Ha : forall a,
            In a (Bs4.find_all_a_href (content_area_of soup)) ->
            In a (Bs4.find_all_a_href soup)).
  { intros a. unfold Bs4.find_all_a_href. rewrite !in_flat_map.
    intros (d & Hd & H). exists d. split; [|exact H].
    now apply content_area_descendants. }
  split; [apply content_area_within|]. split; [|split; [|split]].
  - intros h. unfold headings_of, Bs4.find_all. rewrite !in_map_iff.
    intros (d & <- & Hd). exists d. split; [reflexivity|].
    apply filter_In in Hd as [Hd Hf]. apply filter_In. split; [|exact Hf].
    now apply content_area_descendants.
  - intros domain l. unfold collect_links. rewrite !fold_link_step.
    cbn [fst app]. rewrite !in_map_iff.
    intros (a & <- & Hin). exists a. split; [reflexivity|].
    apply filter_In in Hin as [Hin Hf]. apply filter_In. auto.
  - intros domain l. unfold collect_links. rewrite !fold_link_step.
    cbn [snd app]. rewrite !in_map_iff.
    intros (a & <- & Hin). exists a. split; [reflexivity|].
    apply filter_In in Hin as [Hin Hf]. apply filter_In. auto.
  - intros d. apply content_area_descendants.
Qed.

Lemma X13_content_area_within_document_witness :
  In {| link_text := "About"; href := "/about" |}
     (fst (collect_links "x.com" Sample.post)).
Proof.
  refine (proj1 (proj2 (proj2 (X13_content_area_within_document Sample.post)))
            "x.com" _ _).
  vm_compute. left. reflexivity.
Defined.

(** The converse fails: a link of the document outside the content area is
    not collected. *)
Example link_outside_content_area :
  In {| link_text := "Home"; href := "/home" |}
     (fst (collect_links "x.com" Sample.post))
  /\ ~ In {| link_text := "Home"; href := "/home" |}
       (fst (collect_links "x.com" (content_area_of Sample.post))).
Proof.
  split; vm_compute; [now left|].
  intros [H|[H|[]]]; discriminate.
Qed.

(** ** The further theorems at sample inputs *)

Lemma X2_success_iff_accepted_witness :
  exists rec,
    fst (fetch_post nat (serve_browser_only "<h1>Hello</h1>")
           Sample.html_parser Sample.urlparse
           "https://x.com/blog/my-post/" 0) = Some rec
    /\ rec !! "error" = Some VNone.
Proof.
  refine (proj2 (proj1 (X2_success_iff_accepted nat
            (serve_browser_only "<h1>Hello</h1>") Sample.html_parser
            Sample.urlparse _HEADER_SETS "https://x.com/blog/my-post/" 0)) _).
  exists "<h1>Hello</h1>". split; [|split].
  - exists (Some "403 Client Error: Forbidden"), 2. vm_compute. reflexivity.
  - discriminate.
  - vm_compute. discriminate.
Defined.

Lemma X3_raises_iff_accepted_and_library_raises_witness :
  fst (fetch_post unit (Sample.serve "<h1>Hello</h1>") parser_rejects
         Sample.urlparse "https://x.com/blog/my-post/" tt) = None.
Proof.
  refine (proj2 (X3_raises_iff_accepted_and_library_raises unit
            (Sample.serve "<h1>Hello</h1>") parser_rejects
            Sample.urlparse _HEADER_SETS "https://x.com/blog/my-post/" tt) _).
  exists "<h1>Hello</h1>", None, tt. split; [vm_compute; reflexivity|].
  left. reflexivity.
Defined.

Lemma X10_substitution_idempotent_witness :
  Py.re_sub_newlines ("a" +:+ Py.newlines 2 +:+ "b") =
  "a" +:+ Py.newlines 2 +:+ "b".
Proof.
  refine (proj2 (proj1 (X10_substitution_idempotent
                          ("a" +:+ Py.newlines 2 +:+ "b")))
            (proj1 (proj1 (X10_substitution_idempotent
                             ("a" +:+ Py.newlines 2 +:+ "b"))) _)).
  vm_compute. reflexivity.
Defined.

Lemma X12_empty_body_text_witness :
  body_text_of
    (Tag "div" ∅ [ Tag "p" ∅ [ NavigableString "  " ];
                   NavigableString (Py.newlines 4) ]) = "".
Proof.
  refine (proj2 (proj2 (X12_empty_body_text _)) _).
  repeat constructor.
Defined.
